(** * Cost tracking and trace logging: a shallow embedding

    The development follows the Python sources
    - [src/utils/metrics/cost_tracker.py]  (module [CostTracker])
    - [src/utils/metrics/cost_analysis.py] (module [CostAnalysis])
    - [src/utils/observability/__init__.py] (module [Observability])

    Python [int] is [Z]; Python [float] is the kernel's binary64 [float],
    so that every sum below rounds exactly as the interpreter rounds it;
    [str] is [string]; a [dict] with string keys is an association list in
    insertion order (the order [sum] and [json.dump] walk it in).  Files,
    the clock, [uuid4] and the success of each file operation are inputs of
    the functions that consult them. *)

From Stdlib Require Import ZArith List String Ascii Bool Lia.
From Stdlib Require Import Floats.PrimFloat Floats.SpecFloat Floats.FloatOps.
Import ListNotations.

Set Warnings "-inexact-float,-register-all".
Local Open Scope string_scope.
Local Open Scope list_scope.
Local Open Scope Z_scope.

(* ================================================================== *)
(** * Python values                                                     *)
(* ================================================================== *)

Module Py.

(** The exceptions the modelled code can raise. *)
Inductive exn : Type :=
| OverflowError   (* int / int too large for a float *)
| KeyError        (* d[k] on a missing key *)
| ValueError      (* int(s) or float(s) on text that is not a number *)
| TypeError       (* arithmetic on a value of the wrong type *)
| OSError.        (* a file operation that is not guarded by try/except *)

(** A computation that may raise. *)
Definition result (A : Type) : Type := (exn + A)%type.

Definition ret {A : Type} (a : A) : result A := inr a.
Definition raise {A : Type} (e : exn) : result A := inl e.

Definition bind {A B : Type} (m : result A) (k : A -> result B) : result B :=
  match m with
  | inl e => inl e
  | inr a => k a
  end.

(** ** dict: string keys, insertion order *)

Definition dict (V : Type) : Type := list (string * V).

(** [d.get(k)] *)
Fixpoint dict_get {V : Type} (k : string) (d : dict V) : option V :=
  match d with
  | [] => None
  | (k', v) :: d' => if String.eqb k k' then Some v else dict_get k d'
  end.

(** [k in d] *)
Definition dict_mem {V : Type} (k : string) (d : dict V) : bool :=
  match dict_get k d with
  | Some _ => true
  | None => false
  end.

(** [d[k] = v]: an existing key keeps its position, a new one goes last. *)
Fixpoint dict_set {V : Type} (k : string) (v : V) (d : dict V) : dict V :=
  match d with
  | [] => [(k, v)]
  | (k', v') :: d' =>
      if String.eqb k k' then (k, v) :: d' else (k', v') :: dict_set k v d'
  end.

(** [d[k]] *)
Definition getitem {V : Type} (k : string) (d : dict V) : result V :=
  match dict_get k d with
  | Some v => ret v
  | None => raise KeyError
  end.

(** [d.get(k, dflt)] *)
Definition get_default {V : Type} (k : string) (dflt : V) (d : dict V) : V :=
  match dict_get k d with
  | Some v => v
  | None => dflt
  end.

(** [d.values()] *)
Definition values {V : Type} (d : dict V) : list V := map snd d.

(** ** int and float arithmetic *)

(** [sum(l)] over ints. *)
Definition sumZ (l : list Z) : Z := fold_left Z.add l 0.

(** [sum(l)] over floats: one rounded addition per element, left to right. *)
Definition fsum (l : list float) : float := fold_left PrimFloat.add l 0%float.

(** An int as an exact (not yet rounded) binary number. *)
Definition Z2SF (z : Z) : spec_float :=
  match z with
  | Z0 => S754_zero false
  | Zpos p => S754_finite false p 0
  | Zneg p => S754_finite true p 0
  end.

(** [n / 1_000_000]: true division of ints is the correctly rounded
    quotient, and raises when that is beyond the largest float. *)
Definition div_million (n : Z) : result float :=
  match SFdiv prec emax (Z2SF n) (Z2SF 1000000) with
  | S754_infinity _ => raise OverflowError
  | q => ret (SF2Prim q)
  end.

(** [float(n)] for an int printed in decimal. *)
Definition float_of_Z (n : Z) : float :=
  SF2Prim (binary_normalize prec emax n 0 false).

(** Nearest integer to [n / d], ties to the even one ([0 <= n], [0 < d]). *)
Definition round_half_even (n d : Z) : Z :=
  let (q, r) := Z.div_eucl n d in
  match 2 * r ?= d with
  | Lt => q
  | Gt => q + 1
  | Eq => if Z.even q then q else q + 1
  end.

(** [round(x, 6)]: the exact value of [x] is rounded to six decimals
    (ties to even), and the decimal is read back as the nearest float.
    Zeros, infinities and NaN round to themselves. *)
Definition round6 (x : float) : float :=
  match Prim2SF x with
  | S754_finite s m e =>
      let k := match e with
               | Zneg p => round_half_even (Zpos m * 1000000) (2 ^ Zpos p)
               | _ => Zpos m * 1000000 * 2 ^ e
               end in
      match k with
      | Zpos p => SF2Prim (SFdiv prec emax (S754_finite s p 0) (Z2SF 1000000))
      | _ => SF2Prim (S754_zero s)
      end
  | _ => x
  end.

(** ** Values that travel through CSV cells and trace payloads *)

Inductive value : Type :=
| VNone
| VStr (s : string)
| VInt (z : Z)
| VFloat (f : float)
| VDict (d : list (string * value)).

(** [int(v)] on the text of a cell: only the text of an int reads back. *)
Definition to_int (v : value) : result Z :=
  match v with
  | VInt z => ret z
  | VNone | VDict _ => raise TypeError
  | VStr _ | VFloat _ => raise ValueError
  end.

(** [float(v)] on the text of a cell: the text of a float reads back as
    that float, the text of an int as the nearest float. *)
Definition to_float (v : value) : result float :=
  match v with
  | VFloat f => ret f
  | VInt z => ret (float_of_Z z)
  | VNone | VDict _ => raise TypeError
  | VStr _ => raise ValueError
  end.

End Py.

Notation "x <- m ;; k" := (Py.bind m (fun x => k))
  (at level 61, m at next level, right associativity).

Import Py.

(* ================================================================== *)
(** * cost_tracker.py                                                   *)
(* ================================================================== *)

(** The dataclass [LLMCallMetrics]: one Call Record. *)
Module LLMCallMetrics.
Record t : Type := mk {
  timestamp : string;
  session_id : string;
  agent_name : string;
  model : string;
  provider : string;
  input_tokens : Z;
  output_tokens : Z;
  total_tokens : Z;
  input_cost : float;
  output_cost : float;
  total_cost : float;
  latency_ms : float
}.
End LLMCallMetrics.

(** An entry of [MODEL_PRICING]: [{"input": _, "output": _}]. *)
Module Pricing.
Record t : Type := mk { input : float; output : float }.
End Pricing.

(** The dict [calculate_cost] returns. *)
Module Costs.
Record t : Type := mk {
  input_cost : float;
  output_cost : float;
  total_cost : float
}.
End Costs.

(** A per-agent or per-model entry: [{"calls": _, "tokens": _, "cost": _}]. *)
Module Stats.
Record t : Type := mk { calls : Z; tokens : Z; cost : float }.
Definition zero : t := mk 0 0 0%float.
End Stats.

(** A session rollup, the value stored under a session id in
    [session_costs]. *)
Module Session.
Record t : Type := mk {
  session_id : string;
  start_time : string;
  last_update : string;
  total_calls : Z;
  total_tokens : Z;
  total_cost : float;
  agents : dict Stats.t;
  models : dict Stats.t
}.
End Session.

(** The dict [generate_summary] returns. *)
Module Summary.
Record t : Type := mk {
  total_sessions : Z;
  total_calls : Z;
  total_tokens : Z;
  total_cost : float;
  by_agent : dict Stats.t;
  by_model : dict Stats.t
}.
End Summary.

Module CostTracker.

(** Model pricing (cost per 1M tokens in USD). *)
Definition MODEL_PRICING : dict Pricing.t :=
  [ ("gpt-4o-mini", Pricing.mk 0.150 0.600);
    ("gpt-4o", Pricing.mk 5.00 15.00);
    ("gpt-4", Pricing.mk 30.00 60.00);
    ("claude-3-5-sonnet-20241022", Pricing.mk 3.00 15.00);
    ("claude-3-opus-20240229", Pricing.mk 15.00 75.00);
    ("claude-3-haiku-20240307", Pricing.mk 0.25 1.25) ]%float.

(** ** The files under [log_dir], the logger, and the tracker *)

(** One line of [cost_log.csv]: each cell stands for the text
    [csv.writer] prints for the value it holds. *)
Definition csv_row : Type := list value.

(** What [session_costs.json] holds: the text [json.dump] wrote for a
    mapping of session rollups, or anything [open]/[json.load] fails on. *)
Inductive json_file : Type :=
| Snapshot (d : dict Session.t)
| Unreadable.

Inductive level : Type := DEBUG | INFO | ERROR.

Definition log_record : Type := (level * string)%type.

(** A tracker together with the two files it owns and the records it
    has sent to [logger].  [None] is a file that does not exist. *)
Record t : Type := mk {
  session_costs : dict Session.t;
  csv_file : option (list csv_row);
  session_file : option json_file;
  log : list log_record
}.

(** The directory a tracker is constructed against. *)
Record files : Type := mk_files {
  disk_csv : option (list csv_row);
  disk_session : option json_file
}.

Definition files_of (self : t) : files :=
  mk_files (csv_file self) (session_file self).

(** How the rewrite of the snapshot ends: written whole; [open] raised
    and the file is untouched; or [json.dump] raised after [open(.., 'w')]
    had truncated the file. *)
Inductive dump_outcome : Type := Written | OpenFailed | DumpFailed.

(** What the environment answers during one [track_call]. *)
Record io : Type := mk_io {
  now : string;            (* datetime.now().isoformat() *)
  csv_append_ok : bool;    (* does the append to cost_log.csv succeed *)
  json_dump : dump_outcome (* how the rewrite of session_costs.json ends *)
}.

(** What the environment answers during construction. *)
Record init_io : Type := mk_init_io {
  mkdir_ok : bool;         (* log_dir.mkdir(parents=True, exist_ok=True) *)
  csv_create_ok : bool     (* writing the header of a new cost_log.csv *)
}.

Definition emit (r : log_record) (self : t) : t :=
  mk (session_costs self) (csv_file self) (session_file self) (log self ++ [r]).

Definition CSV_HEADER : csv_row :=
  [ VStr "timestamp"; VStr "session_id"; VStr "agent_name"; VStr "model";
    VStr "provider"; VStr "input_tokens"; VStr "output_tokens";
    VStr "total_tokens"; VStr "input_cost"; VStr "output_cost";
    VStr "total_cost"; VStr "latency_ms" ].

(** [_init_csv]: a new file with the header row; not guarded, so a
    failure leaves the constructor with the exception. *)
Definition _init_csv (ok : bool) : result (list csv_row) :=
  if ok then ret [CSV_HEADER] else raise OSError.

(** [__init__]. *)
Definition __init__ (env : init_io) (disk : files) : result t :=
  if negb (mkdir_ok env) then raise OSError else
  let '(loaded, logged) :=
    match disk_session disk with
    | None => ([], [])
    | Some (Snapshot d) => (d, [])
    | Some Unreadable => ([], [(ERROR, "Failed to load session costs")])
    end in
  csv <- match disk_csv disk with
         | Some rows => ret rows
         | None => _init_csv (csv_create_ok env)
         end ;;
  ret (mk loaded (Some csv) (disk_session disk)
          (logged ++ [(INFO, "CostTracker initialized")])).

(** [calculate_cost]. *)
Definition calculate_cost (model : string) (input_tokens output_tokens : Z)
  : result Costs.t :=
  dflt <- getitem "gpt-4o-mini" MODEL_PRICING ;;
  let pricing := get_default model dflt MODEL_PRICING in
  per_in <- div_million input_tokens ;;
  let input_cost := (per_in * Pricing.input pricing)%float in
  per_out <- div_million output_tokens ;;
  let output_cost := (per_out * Pricing.output pricing)%float in
  let total_cost := (input_cost + output_cost)%float in
  ret (Costs.mk (round6 input_cost) (round6 output_cost) (round6 total_cost)).

(** The row [_log_to_csv] writes. *)
Definition row_of (metrics : LLMCallMetrics.t) : csv_row :=
  [ VStr (LLMCallMetrics.timestamp metrics);
    VStr (LLMCallMetrics.session_id metrics);
    VStr (LLMCallMetrics.agent_name metrics);
    VStr (LLMCallMetrics.model metrics);
    VStr (LLMCallMetrics.provider metrics);
    VInt (LLMCallMetrics.input_tokens metrics);
    VInt (LLMCallMetrics.output_tokens metrics);
    VInt (LLMCallMetrics.total_tokens metrics);
    VFloat (LLMCallMetrics.input_cost metrics);
    VFloat (LLMCallMetrics.output_cost metrics);
    VFloat (LLMCallMetrics.total_cost metrics);
    VFloat (LLMCallMetrics.latency_ms metrics) ].

(** [_log_to_csv]: append one row; a failure is caught and logged.
    Mode ['a'] creates a missing file, without a header. *)
Definition _log_to_csv (ok : bool) (metrics : LLMCallMetrics.t) (self : t) : t :=
  if ok then
    let rows := match csv_file self with Some rows => rows | None => [] end in
    mk (session_costs self) (Some (rows ++ [row_of metrics]))
       (session_file self) (log self)
  else emit (ERROR, "Failed to log to CSV") self.

(** [_save_session_costs]: rewrite the whole snapshot; a failure is
    caught and logged. *)
Definition _save_session_costs (o : dump_outcome) (self : t) : t :=
  match o with
  | Written =>
      mk (session_costs self) (csv_file self)
         (Some (Snapshot (session_costs self))) (log self)
  | OpenFailed => emit (ERROR, "Failed to save session costs") self
  | DumpFailed =>
      emit (ERROR, "Failed to save session costs")
        (mk (session_costs self) (csv_file self) (Some Unreadable) (log self))
  end.

(** The three [+=] on one per-agent or per-model entry, after the entry
    has been created on first sight of its key. *)
Definition bump (key : string) (metrics : LLMCallMetrics.t) (d : dict Stats.t)
  : dict Stats.t :=
  let d := if dict_mem key d then d else dict_set key Stats.zero d in
  match dict_get key d with
  | Some e =>
      dict_set key
        (Stats.mk (Stats.calls e + 1)
                  (Stats.tokens e + LLMCallMetrics.total_tokens metrics)
                  (Stats.cost e + LLMCallMetrics.total_cost metrics)%float)
        d
  | None => d
  end.

(** The rollup a session starts from. *)
Definition new_session (metrics : LLMCallMetrics.t) : Session.t :=
  Session.mk (LLMCallMetrics.session_id metrics)
             (LLMCallMetrics.timestamp metrics)
             (LLMCallMetrics.timestamp metrics)
             0 0 0%float [] [].

(** The updates [_update_session] makes to [session]. *)
Definition fold_in (metrics : LLMCallMetrics.t) (session : Session.t) : Session.t :=
  Session.mk (Session.session_id session)
             (Session.start_time session)
             (LLMCallMetrics.timestamp metrics)
             (Session.total_calls session + 1)
             (Session.total_tokens session + LLMCallMetrics.total_tokens metrics)
             (Session.total_cost session + LLMCallMetrics.total_cost metrics)%float
             (bump (LLMCallMetrics.agent_name metrics) metrics (Session.agents session))
             (bump (LLMCallMetrics.model metrics) metrics (Session.models session)).

(** The in-memory part of [_update_session]. *)
Definition update_sessions (metrics : LLMCallMetrics.t) (sc : dict Session.t)
  : dict Session.t :=
  let session_id := LLMCallMetrics.session_id metrics in
  let sc := if dict_mem session_id sc then sc
            else dict_set session_id (new_session metrics) sc in
  match dict_get session_id sc with
  | Some session => dict_set session_id (fold_in metrics session) sc
  | None => sc
  end.

(** [_update_session]: fold the record in, then persist to disk. *)
Definition _update_session (o : dump_outcome) (metrics : LLMCallMetrics.t) (self : t) : t :=
  _save_session_costs o
    (mk (update_sessions metrics (session_costs self))
        (csv_file self) (session_file self) (log self)).

(** [track_call]: the outcome for the caller and the tracker afterwards. *)
Definition track_call (env : io)
    (session_id agent_name model provider : string)
    (input_tokens output_tokens : Z) (latency_ms : float) (self : t)
  : result LLMCallMetrics.t * t :=
  match calculate_cost model input_tokens output_tokens with
  | inl e => (raise e, self)
  | inr costs =>
      let metrics :=
        LLMCallMetrics.mk (now env) session_id agent_name model provider
          input_tokens output_tokens (input_tokens + output_tokens)
          (Costs.input_cost costs) (Costs.output_cost costs)
          (Costs.total_cost costs) latency_ms in
      let self := _log_to_csv (csv_append_ok env) metrics self in
      let self := _update_session (json_dump env) metrics self in
      let self := emit (DEBUG, "Tracked LLM call") self in
      (ret metrics, self)
  end.

(** [get_session_cost]. *)
Definition get_session_cost (session_id : string) (self : t) : option Session.t :=
  dict_get session_id (session_costs self).

(** [get_all_sessions]. *)
Definition get_all_sessions (self : t) : dict Session.t := session_costs self.

(** [get_total_cost]. *)
Definition get_total_cost (self : t) : float :=
  fsum (map Session.total_cost (values (session_costs self))).

(** ** Sequences of calls *)

(** One [track_call] invocation: its arguments and what the environment
    answers while it runs. *)
Record call : Type := mk_call {
  c_env : io;
  c_session_id : string;
  c_agent_name : string;
  c_model : string;
  c_provider : string;
  c_input_tokens : Z;
  c_output_tokens : Z;
  c_latency_ms : float
}.

Definition track (c : call) (self : t) : result LLMCallMetrics.t * t :=
  track_call (c_env c) (c_session_id c) (c_agent_name c) (c_model c)
    (c_provider c) (c_input_tokens c) (c_output_tokens c) (c_latency_ms c) self.

(** The calls in order: what each returned or raised, and the tracker
    at the end. *)
Fixpoint run (cs : list call) (self : t) : list (result LLMCallMetrics.t) * t :=
  match cs with
  | [] => ([], self)
  | c :: cs' =>
      let (r, self1) := track c self in
      let (rs, self2) := run cs' self1 in
      (r :: rs, self2)
  end.

(** The Call Records among the outcomes. *)
Fixpoint records (rs : list (result LLMCallMetrics.t)) : list LLMCallMetrics.t :=
  match rs with
  | [] => []
  | inr m :: rs' => m :: records rs'
  | inl _ :: rs' => records rs'
  end.

(** The records of one session; of one agent; of one model. *)
Definition of_session (sid : string) (ms : list LLMCallMetrics.t) :=
  filter (fun m => String.eqb (LLMCallMetrics.session_id m) sid) ms.
Definition of_agent (a : string) (ms : list LLMCallMetrics.t) :=
  filter (fun m => String.eqb (LLMCallMetrics.agent_name m) a) ms.
Definition of_model (a : string) (ms : list LLMCallMetrics.t) :=
  filter (fun m => String.eqb (LLMCallMetrics.model m) a) ms.

(** ** The summary over all sessions *)

(** One step of the inner loops of [generate_summary]: create the
    total of [key] on first sight, then add [stats] to it. *)
Definition add_stats (totals : dict Stats.t) (item : string * Stats.t)
  : dict Stats.t :=
  let (key, stats) := item in
  let totals := if dict_mem key totals then totals
                else dict_set key Stats.zero totals in
  match dict_get key totals with
  | Some t =>
      dict_set key
        (Stats.mk (Stats.calls t + Stats.calls stats)
                  (Stats.tokens t + Stats.tokens stats)
                  (Stats.cost t + Stats.cost stats)%float)
        totals
  | None => totals
  end.

(** The two nested loops: every session in order, every item of its
    breakdown in order. *)
Definition totals_over (breakdown : Session.t -> dict Stats.t)
    (sc : dict Session.t) : dict Stats.t :=
  fold_left
    (fun totals session => fold_left add_stats (breakdown session) totals)
    (values sc) [].

(** [generate_summary].  The sum of no costs is the int 0 in Python and
    the float 0.0 here. *)
Definition generate_summary (self : t) : Summary.t :=
  let total_calls := sumZ (map Session.total_calls (values (session_costs self))) in
  let total_tokens := sumZ (map Session.total_tokens (values (session_costs self))) in
  let total_cost := get_total_cost self in
  let agent_totals := totals_over Session.agents (session_costs self) in
  let model_totals := totals_over Session.models (session_costs self) in
  Summary.mk (Z.of_nat (List.length (session_costs self)))
             total_calls total_tokens (round6 total_cost)
             agent_totals model_totals.

End CostTracker.

(* ================================================================== *)
(** * cost_analysis.py                                                  *)
(* ================================================================== *)

Module CostAnalysis.

(** A row as [csv.DictReader] yields it: column name to cell. *)
Definition row : Type := dict value.

(** A per-session entry of [analyze_by_session]:
    [{"calls", "tokens", "cost", "agents", "models"}]. *)
Record entry : Type := mk_entry {
  calls : Z;
  tokens : Z;
  cost : float;
  agents : dict Stats.t;
  models : dict Stats.t
}.

(** [dict(zip(fieldnames, cells))], with [None] for the columns a short
    line lacks.  A later column of the same name overwrites an earlier
    one.  A name that is the text of a number is never looked up below
    and is left out, as are the cells beyond the last name. *)
Fixpoint zip_row (fieldnames : list value) (cells : list value) (d : row) : row :=
  match fieldnames with
  | [] => d
  | name :: names =>
      let cell := match cells with [] => VNone | c :: _ => c end in
      let d := match name with VStr k => dict_set k cell d | _ => d end in
      zip_row names (tl cells) d
  end.

Definition blank (line : CostTracker.csv_row) : bool :=
  match line with [] => true | _ => false end.

(** [csv.DictReader(f)]: the first line names the columns, blank lines
    are skipped. *)
Definition DictReader (lines : list CostTracker.csv_row) : list row :=
  match lines with
  | [] => []
  | fieldnames :: data =>
      map (fun cells => zip_row fieldnames cells [])
          (filter (fun line => negb (blank line)) data)
  end.

(** [row[k] = int(row[k])] and [row[k] = float(row[k])]. *)
Definition conv_int (k : string) (r : row) : result row :=
  v <- getitem k r ;; z <- to_int v ;; ret (dict_set k (VInt z) r).

Definition conv_float (k : string) (r : row) : result row :=
  v <- getitem k r ;; f <- to_float v ;; ret (dict_set k (VFloat f) r).

(** Convert numeric fields. *)
Definition convert (r : row) : result row :=
  r <- conv_int "input_tokens" r ;;
  r <- conv_int "output_tokens" r ;;
  r <- conv_int "total_tokens" r ;;
  r <- conv_float "input_cost" r ;;
  r <- conv_float "output_cost" r ;;
  r <- conv_float "total_cost" r ;;
  conv_float "latency_ms" r.

Fixpoint convert_all (rs : list row) : result (list row) :=
  match rs with
  | [] => ret []
  | r :: rs' => r' <- convert r ;; rs'' <- convert_all rs' ;; ret (r' :: rs'')
  end.

(** [load_cost_log]: no rows when the file does not exist. *)
Definition load_cost_log (log_file : option (list CostTracker.csv_row))
  : result (list row) :=
  match log_file with
  | None => ret []
  | Some lines => convert_all (DictReader lines)
  end.

(** Reading a field of a loaded row at the type the analysis uses it. *)
Definition str_field (k : string) (r : row) : result string :=
  v <- getitem k r ;;
  match v with VStr s => ret s | _ => raise TypeError end.

Definition int_field (k : string) (r : row) : result Z :=
  v <- getitem k r ;;
  match v with VInt z => ret z | _ => raise TypeError end.

Definition float_field (k : string) (r : row) : result float :=
  v <- getitem k r ;;
  match v with VFloat f => ret f | _ => raise TypeError end.

(** The [defaultdict] entries, created on first access. *)
Definition new_entry : entry := mk_entry 0 0 0%float [] [].

(** [d[key]["calls"] += 1; d[key]["tokens"] += tokens; d[key]["cost"] += cost]
    on a [defaultdict] of zero triples. *)
Definition touch (key : string) (tokens : Z) (cost : float) (d : dict Stats.t)
  : dict Stats.t :=
  let e := get_default key Stats.zero d in
  dict_set key
    (Stats.mk (Stats.calls e + 1) (Stats.tokens e + tokens)
              (Stats.cost e + cost)%float)
    d.

(** The body of the loop of [analyze_by_session]. *)
Definition analyze_row (sessions : dict entry) (r : row) : result (dict entry) :=
  session_id <- str_field "session_id" r ;;
  agent <- str_field "agent_name" r ;;
  model <- str_field "model" r ;;
  total_tokens <- int_field "total_tokens" r ;;
  total_cost <- float_field "total_cost" r ;;
  let e := get_default session_id new_entry sessions in
  ret (dict_set session_id
         (mk_entry (calls e + 1) (tokens e + total_tokens)
                   (cost e + total_cost)%float
                   (touch agent total_tokens total_cost (agents e))
                   (touch model total_tokens total_cost (models e)))
         sessions).

Fixpoint analyze_from (sessions : dict entry) (rows : list row)
  : result (dict entry) :=
  match rows with
  | [] => ret sessions
  | r :: rows' => sessions' <- analyze_row sessions r ;; analyze_from sessions' rows'
  end.

(** [analyze_by_session]. *)
Definition analyze_by_session (rows : list row) : result (dict entry) :=
  analyze_from [] rows.

(** The body of the loop of [analyze_by_agent] and of
    [analyze_by_model]; [column] is the column they group by. *)
Definition analyze_key_row (column : string) (totals : dict Stats.t) (r : row)
  : result (dict Stats.t) :=
  key <- str_field column r ;;
  total_tokens <- int_field "total_tokens" r ;;
  total_cost <- float_field "total_cost" r ;;
  ret (touch key total_tokens total_cost totals).

Fixpoint analyze_key_from (column : string) (totals : dict Stats.t)
    (rows : list row) : result (dict Stats.t) :=
  match rows with
  | [] => ret totals
  | r :: rows' =>
      totals' <- analyze_key_row column totals r ;;
      analyze_key_from column totals' rows'
  end.

(** [analyze_by_agent]. *)
Definition analyze_by_agent (rows : list row) : result (dict Stats.t) :=
  analyze_key_from "agent_name" [] rows.



End CostAnalysis.

(* ================================================================== *)
(** * observability/__init__.py                                         *)
(* ================================================================== *)

Module Observability.

(** Types of trace events. *)
Inductive TraceEventType : Type :=
| WORKFLOW_START
| WORKFLOW_END
| AGENT_START
| AGENT_END
| AGENT_RESPONSE
| TOOL_START
| TOOL_END
| ERROR.

(** [event_type.value] *)
Definition value_of (t : TraceEventType) : string :=
  match t with
  | WORKFLOW_START => "workflow_start"
  | WORKFLOW_END => "workflow_end"
  | AGENT_START => "agent_start"
  | AGENT_END => "agent_end"
  | AGENT_RESPONSE => "agent_response"
  | TOOL_START => "tool_start"
  | TOOL_END => "tool_end"
  | ERROR => "error"
  end.

(** A trace event: [{"type": _, "timestamp": _, "data": _}]. *)
Record event : Type := mk_event {
  type : string;
  timestamp : string;
  data : dict value
}.

Record TraceLogger : Type := mk {
  traces : list event;
  current_workflow : option string;
  current_trace_id : option string
}.

(** [TraceLogger()] *)
Definition __init__ : TraceLogger := mk [] None None.

(** An optional string as a payload value. *)
Definition opt_str (o : option string) : value :=
  match o with
  | Some s => VStr s
  | None => VNone
  end.

(** [log_event]; [now] is [datetime.now().isoformat()]. *)
Definition log_event (now : string) (event_type : TraceEventType)
    (data : dict value) (self : TraceLogger) : TraceLogger :=
  mk (traces self ++ [mk_event (value_of event_type) now data])
     (current_workflow self) (current_trace_id self).

(** [start_workflow]; [uuid] is [str(uuid.uuid4())]. *)
Definition start_workflow (uuid now : string) (workflow_name user_input : string)
    (self : TraceLogger) : string * TraceLogger :=
  let trace_id := uuid in
  let self := mk (traces self) (Some workflow_name) (Some trace_id) in
  let self := log_event now WORKFLOW_START
                [ ("trace_id", VStr trace_id);
                  ("workflow_name", VStr workflow_name);
                  ("user_input", VStr user_input) ] self in
  (trace_id, self).

(** [if error:] on an [Optional[str]]. *)
Definition truthy (error : option string) : bool :=
  match error with
  | Some s => negb (String.eqb s "")
  | None => false
  end.

(** [end_workflow]. *)
Definition end_workflow (now : string) (status : string) (error : option string)
    (self : TraceLogger) : dict value * TraceLogger :=
  let trace_data :=
    [ ("trace_id", opt_str (current_trace_id self));
      ("workflow_name", opt_str (current_workflow self));
      ("status", VStr status) ] in
  let trace_data :=
    if truthy error then dict_set "error" (opt_str error) trace_data
    else trace_data in
  let self := log_event now WORKFLOW_END trace_data self in
  let result :=
    [ ("trace_id", opt_str (current_trace_id self));
      ("status", VStr status);
      ("num_events", VInt (Z.of_nat (List.length (traces self)))) ] in
  let self := mk (traces self) None (current_trace_id self) in
  (result, self).

(** [response[:200] if len(response) > 200 else response] *)
Definition truncate (response : string) : string :=
  if (200 <? Z.of_nat (String.length response))%Z
  then substring 0 200 response
  else response.

(** [metadata or {}] *)
Definition or_empty (metadata : option (dict value)) : dict value :=
  match metadata with
  | Some (_ :: _ as d) => d
  | _ => []
  end.

(** [log_agent_response]. *)
Definition log_agent_response (now : string) (agent_name response : string)
    (metadata : option (dict value)) (self : TraceLogger) : TraceLogger :=
  log_event now AGENT_RESPONSE
    [ ("agent_name", VStr agent_name);
      ("response", VStr (truncate response));
      ("metadata", VDict (or_empty metadata)) ] self.

(** [log_agent_activity]. *)
Definition log_agent_activity (now : string) (agent_name activity : string)
    (self : TraceLogger) : TraceLogger :=
  log_event now AGENT_START
    [ ("agent_name", VStr agent_name); ("activity", VStr activity) ] self.

(** [log_tool_execution]. *)
Definition log_tool_execution (now : string) (tool_name : string)
    (args : dict value) (self : TraceLogger) : TraceLogger :=
  log_event now TOOL_START
    [ ("tool_name", VStr tool_name); ("args", VDict args) ] self.

(** [log_error]; [exception] is the name of the exception's type. *)
Definition log_error (now : string) (error_message : string)
    (exception : option string) (context : option (dict value))
    (self : TraceLogger) : TraceLogger :=
  let error_data :=
    [ ("error", VStr error_message); ("context", VDict (or_empty context)) ] in
  let error_data :=
    match exception with
    | Some name => dict_set "exception_type" (VStr name) error_data
    | None => error_data
    end in
  log_event now ERROR error_data self.

(** [get_traces]. *)
Definition get_traces (self : TraceLogger) : list event := traces self.

(** [clear_traces]. *)
Definition clear_traces (self : TraceLogger) : TraceLogger := mk [] None None.

(** The methods that change a [TraceLogger], each with its arguments
    and with what the clock and [uuid4] answer during the call. *)
Inductive operation : Type :=
| StartWorkflow (uuid now workflow_name user_input : string)
| EndWorkflow (now status : string) (error : option string)
| LogEvent (now : string) (event_type : TraceEventType) (data : dict value)
| LogAgentResponse (now agent_name response : string)
                   (metadata : option (dict value))
| LogAgentActivity (now agent_name activity : string)
| LogToolExecution (now tool_name : string) (args : dict value)
| LogError (now error_message : string) (exception : option string)
           (context : option (dict value))
| ClearTraces.

Definition perform (op : operation) (self : TraceLogger) : TraceLogger :=
  match op with
  | StartWorkflow uuid now workflow_name user_input =>
      snd (start_workflow uuid now workflow_name user_input self)
  | EndWorkflow now status error => snd (end_workflow now status error self)
  | LogEvent now event_type data => log_event now event_type data self
  | LogAgentResponse now agent_name response metadata =>
      log_agent_response now agent_name response metadata self
  | LogAgentActivity now agent_name activity =>
      log_agent_activity now agent_name activity self
  | LogToolExecution now tool_name args =>
      log_tool_execution now tool_name args self
  | LogError now error_message exception context =>
      log_error now error_message exception context self
  | ClearTraces => clear_traces self
  end.

End Observability.

(* ================================================================== *)
(** * Statements of the specification                                   *)
(* ================================================================== *)

Module Spec.

Import CostTracker.



(** The triple a group of Call Records adds up to, in call order. *)
Definition stats_of (rs : list LLMCallMetrics.t) : Stats.t :=
  Stats.mk (Z.of_nat (List.length rs))
           (sumZ (map LLMCallMetrics.total_tokens rs))
           (fsum (map LLMCallMetrics.total_cost rs)).

(** A breakdown [d] holds, for each key with a record, exactly the
    triple of that key's records, and its integer columns add up to the
    totals of all the records. *)
Definition groups (key : LLMCallMetrics.t -> string)
    (rs : list LLMCallMetrics.t) (d : dict Stats.t) : Prop :=
  (forall a,
      dict_get a d =
      match filter (fun m => String.eqb (key m) a) rs with
      | [] => None
      | g => Some (stats_of g)
      end) /\
  sumZ (map Stats.calls (values d)) = Z.of_nat (List.length rs) /\
  sumZ (map Stats.tokens (values d)) = sumZ (map LLMCallMetrics.total_tokens rs).



(** The rollups that folding [recs] into [sc], one after the other, gives. *)
Definition replay (recs : list LLMCallMetrics.t) (sc : dict Session.t)
  : dict Session.t :=
  fold_left (fun sc m => update_sessions m sc) recs sc.

(** The row [load_cost_log] returns for the line of a record. *)
Definition loaded_row (m : LLMCallMetrics.t) : CostAnalysis.row :=
  [ ("timestamp", VStr (LLMCallMetrics.timestamp m));
    ("session_id", VStr (LLMCallMetrics.session_id m));
    ("agent_name", VStr (LLMCallMetrics.agent_name m));
    ("model", VStr (LLMCallMetrics.model m));
    ("provider", VStr (LLMCallMetrics.provider m));
    ("input_tokens", VInt (LLMCallMetrics.input_tokens m));
    ("output_tokens", VInt (LLMCallMetrics.output_tokens m));
    ("total_tokens", VInt (LLMCallMetrics.total_tokens m));
    ("input_cost", VFloat (LLMCallMetrics.input_cost m));
    ("output_cost", VFloat (LLMCallMetrics.output_cost m));
    ("total_cost", VFloat (LLMCallMetrics.total_cost m));
    ("latency_ms", VFloat (LLMCallMetrics.latency_ms m)) ].


(** Whether a computation raised. *)
Definition raised {A : Type} (r : result A) : bool :=
  match r with inl _ => true | inr _ => false end.

End Spec.

(* ================================================================== *)
(** * Concrete runs                                                     *)
(* ================================================================== *)

Module Scenario.

Import CostTracker.

(** An environment in which every file operation succeeds. *)
Definition healthy (t : string) : io := mk_io t true Written.

(** The append to the log fails; the snapshot is written. *)
Definition log_down (t : string) : io := mk_io t false Written.

(** The tracker constructed against an empty directory. *)
Definition fresh : CostTracker.t :=
  mk [] (Some [CSV_HEADER]) None [(INFO, "CostTracker initialized")].

(** Three calls to session "s1": two by Planner, one by Recon. *)
Definition three_calls : list call :=
  [ mk_call (healthy "t1") "s1" "Planner" "gpt-4o-mini" "openai" 1000 500 0%float;
    mk_call (healthy "t2") "s1" "Recon" "gpt-4o-mini" "openai" 2000 1000 0%float;
    mk_call (healthy "t3") "s1" "Planner" "gpt-4o" "openai" 500 500 0%float ].


(** Two sessions interleaved in the log. *)
Definition interleaved : list call :=
  [ mk_call (healthy "t1") "s1" "Planner" "gpt-4o-mini" "openai" 1000 500 0%float;
    mk_call (healthy "t2") "s2" "Recon" "gpt-4o" "openai" 2000 1000 0%float;
    mk_call (healthy "t3") "s1" "Recon" "gpt-4o" "openai" 500 500 0%float;
    mk_call (healthy "t4") "s2" "Planner" "gpt-4o-mini" "openai" 7 0 0%float ].

(** Agent "B" in two sessions: 0.2 in "s1", 0.1 in "s2", 0.3 in "s1". *)
Definition two_sessions_one_agent : list call :=
  [ mk_call (healthy "t1") "s1" "B" "gpt-4o" "openai" 40000 0 0%float;
    mk_call (healthy "t2") "s2" "B" "gpt-4o" "openai" 20000 0 0%float;
    mk_call (healthy "t3") "s1" "B" "gpt-4o" "openai" 60000 0 0%float ].

End Scenario.

(* ================================================================== *)
(** * metrics/__init__.py                                               *)
(* ================================================================== *)

Module Metrics.

(** [str.lower()] on the characters a [string] holds (code points below
    256): A-Z and the capital letters of Latin-1 move up by 32. *)
Definition lower_char (c : ascii) : ascii :=
  let n := nat_of_ascii c in
  if ((65 <=? n) && (n <=? 90))%nat then ascii_of_nat (n + 32)
  else if ((192 <=? n) && (n <=? 222) && negb (n =? 215))%nat
       then ascii_of_nat (n + 32)
  else c.

Fixpoint lower (s : string) : string :=
  match s with
  | EmptyString => EmptyString
  | String c s' => String (lower_char c) (lower s')
  end.

(** Single LLM call record. *)
Record LLMCall : Type := mk_call {
  model : string;
  input_tokens : Z;
  output_tokens : Z;
  timestamp : float;
  cost : float
}.

(** Metrics for a task. *)
Record TaskMetrics : Type := mk_task {
  task_id : string;
  start_time : float;
  end_time : option float;
  llm_calls : list LLMCall
}.

Definition total_input_tokens (t : TaskMetrics) : Z :=
  sumZ (map input_tokens (llm_calls t)).

Definition total_output_tokens (t : TaskMetrics) : Z :=
  sumZ (map output_tokens (llm_calls t)).

Definition total_tokens (t : TaskMetrics) : Z :=
  total_input_tokens t + total_output_tokens t.

(** The sum of no costs is the int 0 in Python and the float 0.0 here. *)
Definition total_cost (t : TaskMetrics) : float :=
  fsum (map cost (llm_calls t)).

(** Simple pricing (USD per 1M tokens). *)
Definition PRICING : dict Pricing.t :=
  [ ("gpt-4o-mini", Pricing.mk 0.15 0.60);
    ("gpt-4o", Pricing.mk 2.50 10.00);
    ("claude-3-5-sonnet", Pricing.mk 3.00 15.00);
    ("default", Pricing.mk 0.15 0.60) ]%float.

(** The task tracker ([CostTracker] of this module). *)
Record t : Type := mk {
  tasks : dict TaskMetrics;
  current_task_id : option string
}.

(** [CostTracker()], and [reset]. *)
Definition __init__ : t := mk [] None.

Definition reset (self : t) : t := mk [] None.

(** [start_task]; [now] is [time.time()]. *)
Definition start_task (now : float) (task_id : string) (self : t) : string * t :=
  (task_id, mk (dict_set task_id (mk_task task_id now None []) (tasks self))
               (Some task_id)).

(** [not self.current_task_id or self.current_task_id not in self.tasks] *)
Definition no_active_task (self : t) : bool :=
  match current_task_id self with
  | None => true
  | Some id => String.eqb id "" || negb (dict_mem id (tasks self))
  end.

(** The cost [log_llm_call] computes; it is not rounded. *)
Definition call_cost (model : string) (input_tokens output_tokens : Z)
  : result float :=
  dflt <- getitem "default" PRICING ;;
  let pricing := get_default (lower model) dflt PRICING in
  per_in <- div_million input_tokens ;;
  per_out <- div_million output_tokens ;;
  ret (per_in * Pricing.input pricing + per_out * Pricing.output pricing)%float.

(** [log_llm_call]: what it raises, if anything, and the tracker
    afterwards. *)
Definition log_llm_call (now : float) (model : string)
    (input_tokens output_tokens : Z) (self : t) : result unit * t :=
  if no_active_task self then (ret tt, self) else
  match call_cost model input_tokens output_tokens with
  | inl e => (raise e, self)
  | inr cost =>
      let call := mk_call model input_tokens output_tokens now cost in
      match current_task_id self with
      | Some id =>
          match dict_get id (tasks self) with
          | Some task =>
              (ret tt,
               mk (dict_set id
                     (mk_task (task_id task) (start_time task) (end_time task)
                              (llm_calls task ++ [call]))
                     (tasks self))
                  (current_task_id self))
          | None => (raise KeyError, self)
          end
      | None => (raise KeyError, self)
      end
  end.

(** [end_task]; [now] and [now'] are the two readings of [time.time()]
    that the not-found branch takes. *)
Definition end_task (now now' : float) (id : string) (self : t) : TaskMetrics * t :=
  match dict_get id (tasks self) with
  | Some task =>
      let task := mk_task (task_id task) (start_time task) (Some now)
                          (llm_calls task) in
      let current :=
        match current_task_id self with
        | Some cur => if String.eqb cur id then None else Some cur
        | None => None
        end in
      (task, mk (dict_set id task (tasks self)) current)
  | None => (mk_task id now (Some now') [], self)
  end.

(** The dict [get_stats] returns. *)
Record stats : Type := mk_stats {
  s_total_input_tokens : Z;
  s_total_output_tokens : Z;
  s_total_tokens : Z;
  s_total_cost : float;
  s_num_tasks : Z;
  s_num_calls : Z
}.

(** [get_stats]. *)
Definition get_stats (self : t) : stats :=
  let total_input := sumZ (map total_input_tokens (values (tasks self))) in
  let total_output := sumZ (map total_output_tokens (values (tasks self))) in
  let total_cost := fsum (map total_cost (values (tasks self))) in
  mk_stats total_input total_output (total_input + total_output) total_cost
           (Z.of_nat (List.length (tasks self)))
           (sumZ (map (fun t => Z.of_nat (List.length (llm_calls t)))
                      (values (tasks self)))).

End Metrics.

(* ================================================================== *)
(** * Further statements                                                *)
(* ================================================================== *)

Module Tally.

Import CostTracker.

(** The entries a breakdown holds under key [a]. *)
Definition entries_for (a : string) (d : dict Stats.t) : list Stats.t :=
  values (filter (fun item => String.eqb (fst item) a) d).

(** The total a summary holds for [a]; the zero triple when it has none. *)
Definition total_for (a : string) (totals : dict Stats.t) : Stats.t :=
  get_default a Stats.zero totals.

(** What one Call Record adds to the entry of its agent and of its model. *)
Definition one (m : LLMCallMetrics.t) : Stats.t :=
  Stats.mk 1 (LLMCallMetrics.total_tokens m) (LLMCallMetrics.total_cost m).

(** [d.keys()] *)
Definition keys {V : Type} (d : dict V) : list string := map fst d.

(** The value a session has under [g], 0 when the session is absent. *)
Definition at_session (g : Session.t -> Z) (sid : string) (sc : dict Session.t) : Z :=
  match dict_get sid sc with
  | Some s => g s
  | None => 0
  end.

(** The methods of a [TraceLogger] that log, in the order called. *)
Definition perform_all (ops : list Observability.operation)
    (self : Observability.TraceLogger) : Observability.TraceLogger :=
  fold_left (fun self op => Observability.perform op self) ops self.

Definition is_clear (op : Observability.operation) : bool :=
  match op with
  | Observability.ClearTraces => true
  | _ => false
  end.

(** A summary whose totals are the sums of its two breakdowns. *)
Definition summary_consistent (s : Summary.t) : Prop :=
  Summary.total_calls s = sumZ (map Stats.calls (values (Summary.by_agent s))) /\
  Summary.total_calls s = sumZ (map Stats.calls (values (Summary.by_model s))) /\
  Summary.total_tokens s = sumZ (map Stats.tokens (values (Summary.by_agent s))) /\
  Summary.total_tokens s = sumZ (map Stats.tokens (values (Summary.by_model s))).




End Tally.

(* ================================================================== *)
(** * Lemmas on dicts and sums                                          *)
(* ================================================================== *)

Section DictLemmas.

Context {V : Type}.
Implicit Types (k : string) (v : V) (d : dict V).

Lemma dict_get_set_same k v d : dict_get k (dict_set k v d) = Some v.
Proof.
  induction d as [|[k' v'] d IH]; simpl.
  - now rewrite String.eqb_refl.
  - destruct (String.eqb k k') eqn:E; simpl.
    + now rewrite String.eqb_refl.
    + now rewrite E.
Qed.

Lemma dict_get_set_other k k' v d :
  String.eqb k' k = false -> dict_get k' (dict_set k v d) = dict_get k' d.
Proof.
  intros N. induction d as [|[k0 v0] d IH]; simpl.
  - now rewrite N.
  - destruct (String.eqb k k0) eqn:E; simpl.
    + apply String.eqb_eq in E. subst k0. now rewrite N.
    + now rewrite IH.
Qed.

Lemma dict_set_set k v v' d :
  dict_set k v' (dict_set k v d) = dict_set k v' d.
Proof.
  induction d as [|[k0 v0] d IH]; simpl.
  - now rewrite String.eqb_refl.
  - destruct (String.eqb k k0) eqn:E; simpl.
    + now rewrite String.eqb_refl.
    + now rewrite E, IH.
Qed.

Lemma dict_mem_get k d :
  dict_mem k d = match dict_get k d with Some _ => true | None => false end.
Proof. reflexivity. Qed.

End DictLemmas.

Lemma sumZ_from (l : list Z) (a : Z) : fold_left Z.add l a = a + sumZ l.
Proof.
  unfold sumZ. revert a. induction l as [|x l IH]; intros a; simpl.
  - lia.
  - rewrite (IH (a + x)), (IH x). lia.
Qed.

Lemma sumZ_cons (x : Z) (l : list Z) : sumZ (x :: l) = x + sumZ l.
Proof. unfold sumZ at 1. simpl. apply sumZ_from. Qed.

Lemma sumZ_snoc (l : list Z) (x : Z) : sumZ (l ++ [x]) = sumZ l + x.
Proof. unfold sumZ. now rewrite fold_left_app. Qed.



Lemma sumZ_dict_set {V : Type} (f : V -> Z) (k : string) (v : V) (d : dict V) :
  sumZ (map f (values (dict_set k v d))) =
  sumZ (map f (values d)) + f v -
  match dict_get k d with Some o => f o | None => 0 end.
Proof.
  unfold values.
  induction d as [|[k0 v0] d IH]; simpl.
  - rewrite sumZ_cons. unfold sumZ. simpl. lia.
  - destruct (String.eqb k k0) eqn:E; simpl.
    + rewrite !sumZ_cons. lia.
    + rewrite !sumZ_cons, IH. lia.
Qed.

(* ================================================================== *)
(** * The session rollup                                                *)
(* ================================================================== *)

Section Rollup.

Import CostTracker Spec.

(** Creating the entry on first sight and then adding to it is one
    get-or-zero followed by one store: the live path and the analysis
    path update a breakdown alike. *)
Lemma bump_touch (key : string) (m : LLMCallMetrics.t) (d : dict Stats.t) :
  bump key m d =
  CostAnalysis.touch key (LLMCallMetrics.total_tokens m)
                     (LLMCallMetrics.total_cost m) d.
Proof.
  unfold bump, CostAnalysis.touch, get_default, dict_mem.
  destruct (dict_get key d) as [e|] eqn:E.
  - now rewrite E.
  - now rewrite dict_get_set_same, dict_set_set.
Qed.

Lemma update_sessions_set (m : LLMCallMetrics.t) (sc : dict Session.t) :
  update_sessions m sc =
  dict_set (LLMCallMetrics.session_id m)
    (fold_in m (get_default (LLMCallMetrics.session_id m) (new_session m) sc))
    sc.
Proof.
  unfold update_sessions, get_default, dict_mem.
  destruct (dict_get (LLMCallMetrics.session_id m) sc) as [s|] eqn:E.
  - now rewrite E.
  - now rewrite dict_get_set_same, dict_set_set.
Qed.



Lemma groups_nil (key : LLMCallMetrics.t -> string) : groups key [] [].
Proof. repeat split. Qed.






(** The in-memory effect of one call: nothing when it raised, the
    record folded in when it returned one, whatever the file operations
    did. *)
Lemma track_sessions (c : call) (self : t) :
  session_costs (snd (track c self)) =
  replay (records [fst (track c self)]) (session_costs self).
Proof.
  unfold track, track_call.
  destruct (calculate_cost _ _ _) as [e|costs]; [reflexivity|].
  unfold _update_session, _save_session_costs, _log_to_csv, emit.
  destruct (csv_append_ok (c_env c)), (json_dump (c_env c)); reflexivity.
Qed.

Lemma run_sessions (cs : list call) (self : t) :
  session_costs (snd (run cs self)) =
  replay (records (fst (run cs self))) (session_costs self).
Proof.
  revert self. induction cs as [|c cs IH]; intros self; [reflexivity|].
  simpl. pose proof (track_sessions c self) as T.
  destruct (track c self) as [r self1]. specialize (IH self1).
  destruct (run cs self1) as [rs self2]. simpl in *.
  rewrite IH, T. now destruct r.
Qed.

End Rollup.

(* ================================================================== *)
(** * Reconciliation of a rollup with its Call Records                  *)
(* ================================================================== *)

Section Reconciliation.

Import CostTracker Spec.






End Reconciliation.

(* ================================================================== *)
(** * The cost calculator                                               *)
(* ================================================================== *)

Section Calculator.

Import CostTracker Spec.

Lemma default_tier :
  getitem "gpt-4o-mini" MODEL_PRICING = ret (Pricing.mk 0.15 0.6).
Proof. reflexivity. Qed.



Lemma div_million_raises (n : Z) (e : exn) :
  div_million n = inl e -> e = OverflowError.
Proof.
  unfold div_million, raise, ret.
  destruct (SFdiv prec emax (Z2SF n) (Z2SF 1000000)); congruence.
Qed.

Lemma calculate_cost_unfold (model : string) (i o : Z) :
  calculate_cost model i o =
  (per_in <- div_million i ;;
   per_out <- div_million o ;;
   let pricing := get_default model (Pricing.mk 0.15 0.6) MODEL_PRICING in
   let input_cost := (per_in * Pricing.input pricing)%float in
   let output_cost := (per_out * Pricing.output pricing)%float in
   ret (Costs.mk (round6 input_cost) (round6 output_cost)
                 (round6 (input_cost + output_cost)))).
Proof.
  unfold calculate_cost. rewrite default_tier. unfold bind, ret.
  destruct (div_million i); [reflexivity|].
  destruct (div_million o); reflexivity.
Qed.


(** The total is rounded from the unrounded sum, so it need not be the
    sum of the two rounded costs. *)
Example total_is_not_sum_of_rounded :
  calculate_cost "gpt-4o-mini" 4 1 = ret (Costs.mk 0.000001 0.000001 0.000001).
Proof. reflexivity. Qed.

Lemma calculate_cost_raises (model : string) (i o : Z) (e : exn) :
  calculate_cost model i o = inl e ->
  e = OverflowError /\
  (raised (div_million i) || raised (div_million o) = true)%bool.
Proof.
  rewrite calculate_cost_unfold. unfold bind, ret.
  destruct (div_million i) as [e1|] eqn:D1.
  - intros [= <-]. split; [now apply div_million_raises in D1 | reflexivity].
  - destruct (div_million o) as [e2|] eqn:D2.
    + intros [= <-]. split; [now apply div_million_raises in D2 | reflexivity].
    + discriminate.
Qed.

End Calculator.

(* ================================================================== *)
(** * What track_call does on bad input and on a failed append          *)
(* ================================================================== *)

Section Failures.

Import CostTracker Spec.

Variables (env : io) (session_id agent_name model provider : string).
Variables (input_tokens output_tokens : Z) (latency_ms : float) (self : t).

(** C2 (as amended).  Neither [calculate_cost] nor [track_call] looks at
    the sign of the counts.  Whatever the counts, [calculate_cost] either
    returns or raises OverflowError, the latter because a count divided
    by 1,000,000 is too large for a float; [track_call] then raises the
    same error and leaves the tracker and both files as they were.  When
    [calculate_cost] returns, [track_call] returns the Call Record built
    from the counts as given, appends its row to the log (when the
    append succeeds) and folds it into the session rollup. *)
Theorem counts_are_not_validated :
  let out := track_call env session_id agent_name model provider
               input_tokens output_tokens latency_ms self in
  match calculate_cost model input_tokens output_tokens with
  | inl e =>
      e = OverflowError /\
      (raised (div_million input_tokens) || raised (div_million output_tokens)
       = true)%bool /\
      out = (inl e, self)
  | inr costs =>
      let metrics :=
        LLMCallMetrics.mk (now env) session_id agent_name model provider
          input_tokens output_tokens (input_tokens + output_tokens)
          (Costs.input_cost costs) (Costs.output_cost costs)
          (Costs.total_cost costs) latency_ms in
      fst out = inr metrics /\
      session_costs (snd out) = update_sessions metrics (session_costs self) /\
      csv_file (snd out) =
        (if csv_append_ok env
         then Some (match csv_file self with Some rows => rows | None => [] end
                    ++ [row_of metrics])
         else csv_file self)
  end.
Proof.
  cbv zeta. unfold track_call.
  destruct (calculate_cost model input_tokens output_tokens) as [e|costs] eqn:C.
  - destruct (calculate_cost_raises _ _ _ _ C) as (-> & R). now repeat split.
  - unfold _update_session, _save_session_costs, _log_to_csv, emit.
    destruct (csv_append_ok env), (json_dump env); now repeat split.
Qed.


End Failures.

Section FailureRuns.

Import CostTracker Spec.

(** C2 (as stated) fails: a negative count is not rejected.
    [calculate_cost("gpt-4o", -1000000, 0)] returns a total of -5.0, and
    [track_call] with these counts returns a record, appends its row to
    the log and creates the session rollup. *)
Lemma negative_count_is_accepted :
  let out := track_call (Scenario.healthy "t1") "s1" "Planner" "gpt-4o" "openai"
               (-1000000) 0 0%float Scenario.fresh in
  (-1000000 < 0) /\
  calculate_cost "gpt-4o" (-1000000) 0 = ret (Costs.mk (-5) 0 (-5))%float /\
  PrimFloat.ltb (-5) 0 = true /\
  fst out =
    inr (LLMCallMetrics.mk "t1" "s1" "Planner" "gpt-4o" "openai"
           (-1000000) 0 (-1000000) (-5) 0 (-5) 0)%float /\
  option_map (@List.length csv_row) (csv_file (snd out)) = Some 2%nat /\
  get_session_cost "s1" (snd out) =
    Some (Session.mk "s1" "t1" "t1" 1 (-1000000) (-5)%float
            [("Planner", Stats.mk 1 (-1000000) (-5)%float)]
            [("gpt-4o", Stats.mk 1 (-1000000) (-5)%float)]) /\
  session_file (snd out) = Some (Snapshot (session_costs (snd out))).
Proof. cbv zeta. repeat split. Qed.



End FailureRuns.

(* ================================================================== *)
(** * Construction and restart                                          *)
(* ================================================================== *)

Section Restart.

Import CostTracker Spec.

Lemma run_app (a b : list call) (self : t) :
  run (a ++ b) self =
  (fst (run a self) ++ fst (run b (snd (run a self))),
   snd (run b (snd (run a self)))).
Proof.
  revert self. induction a as [|c a IH]; intros self; simpl.
  - now destruct (run b self).
  - destruct (track c self) as [r self1]. rewrite IH.
    now destruct (run a self1).
Qed.

Lemma track_raised (c : call) (self : t) :
  raised (fst (track c self)) = true -> snd (track c self) = self.
Proof.
  unfold track, track_call.
  now destruct (calculate_cost _ _ _).
Qed.

Lemma run_no_records (cs : list call) (self : t) :
  records (fst (run cs self)) = [] -> snd (run cs self) = self.
Proof.
  revert self. induction cs as [|c cs IH]; intros self; [reflexivity|].
  simpl. pose proof (track_raised c self) as T.
  destruct (track c self) as [r self1]. specialize (IH self1).
  destruct (run cs self1) as [rs self2]. simpl in *.
  destruct r; [|discriminate].
  intros R. rewrite (IH R). now apply T.
Qed.

(** After a call that returned and whose rewrite of the snapshot
    succeeded, the snapshot file holds the rollups that are in memory. *)
Lemma track_saved (c : call) (self : t) :
  raised (fst (track c self)) = false ->
  json_dump (c_env c) = Written ->
  session_file (snd (track c self)) =
  Some (Snapshot (session_costs (snd (track c self)))).
Proof.
  unfold track, track_call.
  destruct (calculate_cost _ _ _); [discriminate|].
  intros _ W. unfold _update_session, _save_session_costs, _log_to_csv, emit.
  rewrite W. now destruct (csv_append_ok (c_env c)).
Qed.

Lemma init_loads_snapshot (ienv : init_io) (disk : files) (fresh : t)
    (d : dict Session.t) :
  disk_session disk = Some (Snapshot d) ->
  __init__ ienv disk = inr fresh ->
  session_costs fresh = d.
Proof.
  unfold __init__, _init_csv, bind, ret, raise. intros ->.
  destruct (mkdir_ok ienv); [|discriminate]. simpl.
  destruct (disk_csv disk); [|destruct (csv_create_ok ienv)];
    intros [= <-] || discriminate; reflexivity.
Qed.

(** Construction raises only for the directory or the header of a new
    log, never for the snapshot: whatever [session_costs.json] holds,
    the constructor ends as it would with no snapshot at all. *)
Lemma snapshot_never_aborts_construction (ienv : init_io) (disk : files) :
  raised (__init__ ienv disk) =
  raised (__init__ ienv (mk_files (disk_csv disk) None)).
Proof.
  unfold __init__, _init_csv, bind, ret, raise.
  destruct (mkdir_ok ienv); [|reflexivity]. simpl.
  destruct (disk_session disk) as [[d|]|];
    (destruct (disk_csv disk); [|destruct (csv_create_ok ienv)]); reflexivity.
Qed.

(** C5.  Take a tracker state reached by [track_call] invocations, the
    last of which that returned a record ([c]) had its snapshot written
    (every later invocation, if any, raised and so attempted no save).
    A tracker then constructed against the same directory has, as
    [get_all_sessions()], exactly the session rollups of the state before
    the restart. *)
Theorem restart_recovers_sessions
    (self : t) (cs : list call) (c : call) (later : list call)
    (ienv : init_io) (fresh : t) :
  let before := snd (run cs self) in
  let self' := snd (run (cs ++ c :: later) self) in
  raised (fst (track c before)) = false ->
  json_dump (c_env c) = Written ->
  records (fst (run later (snd (track c before)))) = [] ->
  __init__ ienv (files_of self') = inr fresh ->
  get_all_sessions fresh = get_all_sessions self'.
Proof.
  intros before self' R W L I. unfold get_all_sessions.
  assert (self' = snd (track c before)) as E.
  { unfold self', before in *. rewrite run_app. cbn [snd run].
    destruct (track c (snd (run cs self))) as [r s1] eqn:T. cbn [snd] in L.
    pose proof (run_no_records later s1 L) as N.
    destruct (run later s1) as [rs s2]. cbn [snd] in *. exact N. }
  apply (init_loads_snapshot ienv (files_of self') fresh); [|exact I].
  rewrite E. cbn [files_of disk_session]. now apply track_saved.
Qed.

(** The three calls of section 8, then a restart. *)
Lemma restart_after_three_calls :
  exists fresh : t,
    __init__ (mk_init_io true true)
      (files_of (snd (run Scenario.three_calls Scenario.fresh))) = inr fresh /\
    get_all_sessions fresh =
    get_all_sessions (snd (run Scenario.three_calls Scenario.fresh)) /\
    option_map Session.total_calls (dict_get "s1" (get_all_sessions fresh)) = Some 3.
Proof.
  eexists. split; [reflexivity|]. split; [|reflexivity].
  exact (restart_recovers_sessions Scenario.fresh
           (firstn 2 Scenario.three_calls)
           (mk_call (Scenario.healthy "t3") "s1" "Planner" "gpt-4o" "openai"
                    500 500 0%float)
           [] (mk_init_io true true) _ eq_refl eq_refl eq_refl eq_refl).
Defined.

(** When the last rewrite of the snapshot failed, a restart recovers the
    rollups of the last snapshot that was written instead. *)
Example restart_after_failed_save :
  let c := mk_call (mk_io "t4" true OpenFailed) "s1" "Planner" "gpt-4o"
                   "openai" 1 1 0%float in
  let self' := snd (run (Scenario.three_calls ++ [c]) Scenario.fresh) in
  option_map Session.total_calls (get_session_cost "s1" self') = Some 4 /\
  exists fresh : t,
    __init__ (mk_init_io true true) (files_of self') = inr fresh /\
    option_map Session.total_calls (get_session_cost "s1" fresh) = Some 3.
Proof. cbv zeta. split; [reflexivity|]. eexists. split; reflexivity. Qed.

(** C7.  With a snapshot that cannot be read or parsed, the constructor
    catches the failure, logs it at level ERROR and starts from the empty
    mapping; construction completes whenever the directory and the log
    file are available, exactly as it does with no snapshot
    ([snapshot_never_aborts_construction]). *)
Theorem unreadable_snapshot_starts_empty (ienv : init_io) (disk : files) :
  disk_session disk = Some Unreadable ->
  mkdir_ok ienv = true ->
  match disk_csv disk with Some _ => true | None => csv_create_ok ienv end = true ->
  exists self : t,
    __init__ ienv disk = inr self /\
    get_all_sessions self = [] /\
    In (ERROR, "Failed to load session costs") (log self) /\
    session_file self = Some Unreadable.
Proof.
  intros U M C. unfold __init__, _init_csv, bind, ret, raise.
  rewrite U, M. simpl.
  destruct (disk_csv disk); [|rewrite C];
    (eexists; split; [reflexivity|]; simpl; auto).
Qed.

Lemma unreadable_snapshot_on_empty_log_dir :
  exists self : t,
    __init__ (mk_init_io true true) (mk_files None (Some Unreadable)) = inr self /\
    get_all_sessions self = [] /\
    csv_file self = Some [CSV_HEADER] /\
    log self = [(ERROR, "Failed to load session costs");
                (INFO, "CostTracker initialized")].
Proof.
  destruct (unreadable_snapshot_starts_empty (mk_init_io true true)
              (mk_files None (Some Unreadable)) eq_refl eq_refl eq_refl)
    as (self & I & E & _).
  exists self. split; [exact I|]. split; [exact E|].
  injection I as <-. split; reflexivity.
Defined.

End Restart.

(* ================================================================== *)
(** * Re-deriving the rollups from the log                              *)
(* ================================================================== *)

Section Rederivation.

Import CostTracker CostAnalysis Spec.



(** The line of a record, read back under the header and converted. *)
Lemma zip_loaded (m : LLMCallMetrics.t) :
  zip_row CSV_HEADER (row_of m) [] = loaded_row m.
Proof. reflexivity. Qed.

Lemma convert_loaded (m : LLMCallMetrics.t) :
  convert (loaded_row m) = ret (loaded_row m).
Proof. reflexivity. Qed.

Lemma convert_all_loaded (recs : list LLMCallMetrics.t) :
  convert_all (map loaded_row recs) = ret (map loaded_row recs).
Proof.
  induction recs as [|m recs IH]; [reflexivity|].
  cbn [map convert_all]. rewrite convert_loaded, IH. reflexivity.
Qed.

Lemma DictReader_log (recs : list LLMCallMetrics.t) :
  DictReader (CSV_HEADER :: map row_of recs) = map loaded_row recs.
Proof.
  unfold DictReader.
  induction recs as [|m recs IH]; [reflexivity|].
  cbn [map filter blank row_of negb]. now rewrite IH, zip_loaded.
Qed.








(** What the equivalence rests on: when an append fails, the log and
    the live rollup part ways. *)
Example analysis_after_failed_append :
  let c := mk_call (Scenario.log_down "t4") "s1" "Planner" "gpt-4o" "openai"
                   1 1 0%float in
  let self' := snd (run (Scenario.three_calls ++ [c]) Scenario.fresh) in
  option_map Session.total_calls (get_session_cost "s1" self') = Some 4 /\
  exists analysis : dict entry,
    (rows <- load_cost_log (csv_file self') ;; analyze_by_session rows)
      = ret analysis /\
    option_map calls (dict_get "s1" analysis) = Some 3.
Proof. cbv zeta. split; [reflexivity|]. eexists. split; reflexivity. Qed.

End Rederivation.

(* ================================================================== *)
(** * The trace logger                                                  *)
(* ================================================================== *)

Section Traces.

Import Observability.

Lemma substring_0_length (n : nat) (s : string) :
  String.length (substring 0 n s) = Nat.min n (String.length s).
Proof.
  revert s. induction n as [|n IH]; intros [|c s]; cbn [substring String.length Nat.min];
    try reflexivity.
  now rewrite IH.
Qed.

Lemma substring_0_prefix (n : nat) (s : string) :
  prefix (substring 0 n s) s = true.
Proof.
  revert s. induction n as [|n IH]; intros [|c s]; cbn [substring prefix];
    try reflexivity.
  destruct (ascii_dec c c); [apply IH | congruence].
Qed.

Lemma prefix_refl (s : string) : prefix s s = true.
Proof.
  induction s as [|c s IH]; cbn [prefix]; [reflexivity|].
  destruct (ascii_dec c c); [exact IH | congruence].
Qed.

(** C9.  [log_agent_response] appends one agent_response event whose
    "response" is the response itself when it has at most 200
    characters and its first 200 characters otherwise; the stored text is
    a prefix of the response and never longer than 200. *)
Theorem response_is_truncated_to_200
    (now agent_name response : string) (metadata : option (dict value))
    (self : TraceLogger) :
  let self' := log_agent_response now agent_name response metadata self in
  exists (stored : string) (rest : dict value),
    traces self' =
      traces self ++
      [mk_event "agent_response" now
         (("agent_name", VStr agent_name) :: ("response", VStr stored) :: rest)] /\
    stored = (if Nat.leb (String.length response) 200 then response
              else substring 0 200 response) /\
    String.length stored = Nat.min 200 (String.length response) /\
    (String.length stored <= 200)%nat /\
    prefix stored response = true.
Proof.
  cbv zeta. exists (truncate response). eexists. split; [reflexivity|].
  unfold truncate.
  destruct (Z.ltb_spec 200 (Z.of_nat (String.length response))) as [L|L];
    destruct (Nat.leb_spec (String.length response) 200) as [N|N]; try lia.
  - rewrite substring_0_length. split; [reflexivity|].
    split; [reflexivity|]. split; [lia|]. apply substring_0_prefix.
  - split; [reflexivity|]. split; [lia|]. split; [lia|]. apply prefix_refl.
Qed.

Lemma end_workflow_event (now status : string) (error : option string)
    (self : TraceLogger) :
  exists payload : dict value,
    traces (snd (end_workflow now status error self)) =
      traces self ++ [mk_event "workflow_end" now payload] /\
    dict_get "trace_id" payload = Some (opt_str (current_trace_id self)) /\
    dict_get "workflow_name" payload = Some (opt_str (current_workflow self)) /\
    dict_get "status" payload = Some (VStr status).
Proof.
  unfold end_workflow, log_event. cbn [snd traces value_of].
  destruct (truthy error); eexists; (split; [reflexivity|]); now repeat split.
Qed.

(** C10.  [end_workflow] appends one workflow_end event carrying the
    current trace id and workflow name, returns that trace id, sets
    [current_workflow] to None and leaves [current_trace_id] and the
    earlier events as they were.  A second [end_workflow] right after it
    therefore reports the same trace id again, with None as the
    workflow name.  [clear_traces] resets the events, the workflow and
    the trace id together, and no other method drops an event or turns a
    trace id into None. *)
Theorem end_workflow_keeps_trace_id
    (now status : string) (error : option string) (self : TraceLogger) :
  let out := end_workflow now status error self in
  let self' := snd out in
  current_workflow self' = None /\
  current_trace_id self' = current_trace_id self /\
  (exists payload : dict value,
      traces self' = traces self ++ [mk_event "workflow_end" now payload] /\
      dict_get "trace_id" payload = Some (opt_str (current_trace_id self)) /\
      dict_get "workflow_name" payload = Some (opt_str (current_workflow self))) /\
  dict_get "trace_id" (fst out) = Some (opt_str (current_trace_id self)) /\
  (forall (now2 status2 : string) (error2 : option string),
      let out2 := end_workflow now2 status2 error2 self' in
      dict_get "trace_id" (fst out2) = Some (opt_str (current_trace_id self)) /\
      exists payload2 : dict value,
        traces (snd out2) = traces self' ++ [mk_event "workflow_end" now2 payload2] /\
        dict_get "trace_id" payload2 = Some (opt_str (current_trace_id self)) /\
        dict_get "workflow_name" payload2 = Some VNone) /\
  clear_traces self = mk [] None None /\
  (forall op : operation,
      match op with
      | ClearTraces => perform op self = mk [] None None
      | StartWorkflow uuid _ _ _ =>
          (exists evs, traces (perform op self) = traces self ++ evs) /\
          current_trace_id (perform op self) = Some uuid
      | _ =>
          (exists evs, traces (perform op self) = traces self ++ evs) /\
          current_trace_id (perform op self) = current_trace_id self
      end).
Proof.
  cbv zeta. split; [reflexivity|]. split; [reflexivity|]. split.
  { destruct (end_workflow_event now status error self) as (p & T & A & B & _).
    exists p. now repeat split. }
  split; [reflexivity|]. split.
  { intros now2 status2 error2. split; [reflexivity|].
    destruct (end_workflow_event now2 status2 error2
                (snd (end_workflow now status error self)))
      as (p & T & A & B & _).
    exists p. split; [exact T|]. split; [exact A | exact B]. }
  split; [reflexivity|].
  intros [uuid t w u | t st e | t ty d | t a r md | t a act | t tn args
          | t msg ex ctx | ]; cbn [perform];
    try reflexivity; (split; [|reflexivity]).
  - eexists. reflexivity.
  - destruct (end_workflow_event t st e self) as (p & T & _). eexists. exact T.
  - eexists. reflexivity.
  - eexists. reflexivity.
  - eexists. reflexivity.
  - eexists. reflexivity.
  - eexists. reflexivity.
Qed.

(** A workflow started and then ended twice. *)
Example second_end_workflow :
  let started := snd (start_workflow "id-1" "t0" "recon" "scan" __init__) in
  let once := end_workflow "t1" "completed" None started in
  let twice := end_workflow "t2" "completed" None (snd once) in
  fst once = [("trace_id", VStr "id-1"); ("status", VStr "completed");
              ("num_events", VInt 2)] /\
  fst twice = [("trace_id", VStr "id-1"); ("status", VStr "completed");
               ("num_events", VInt 3)] /\
  option_map data (nth_error (traces (snd twice)) 2) =
    Some [("trace_id", VStr "id-1"); ("workflow_name", VNone);
          ("status", VStr "completed")].
Proof. cbv zeta. repeat split. Qed.

End Traces.

(* ================================================================== *)
(** * The summary over all sessions                                     *)
(* ================================================================== *)

Section MoreDictLemmas.

Context {V : Type}.
Implicit Types (k a : string) (v z : V) (d : dict V).

Lemma get_default_set a k z v d :
  get_default a z (dict_set k v d) =
  if String.eqb a k then v else get_default a z d.
Proof.
  unfold get_default. destruct (String.eqb a k) eqn:E.
  - apply String.eqb_eq in E. subst a. now rewrite dict_get_set_same.
  - now rewrite dict_get_set_other.
Qed.

Lemma keys_dict_set k v d :
  Tally.keys (dict_set k v d) =
  if dict_mem k d then Tally.keys d else Tally.keys d ++ [k].
Proof.
  unfold Tally.keys, dict_mem.
  induction d as [|[k0 v0] d IH]; simpl; [reflexivity|].
  destruct (String.eqb k k0) eqn:E; simpl.
  - apply String.eqb_eq in E. now subst k0.
  - rewrite IH. now destruct (dict_get k d).
Qed.

Lemma dict_mem_keys k d : dict_mem k d = true <-> In k (Tally.keys d).
Proof.
  unfold dict_mem, Tally.keys.
  induction d as [|[k0 v0] d IH]; simpl; [split; [discriminate|tauto]|].
  destruct (String.eqb k k0) eqn:E.
  - apply String.eqb_eq in E. subst k0. tauto.
  - apply String.eqb_neq in E. rewrite IH. split; [tauto|].
    intros [X|X]; [congruence|exact X].
Qed.

Lemma dict_get_none_keys k d : dict_get k d = None <-> ~ In k (Tally.keys d).
Proof.
  rewrite <- dict_mem_keys. unfold dict_mem.
  destruct (dict_get k d); split; congruence.
Qed.

End MoreDictLemmas.

Lemma sumZ_app (l l' : list Z) : sumZ (l ++ l') = sumZ l + sumZ l'.
Proof.
  unfold sumZ at 1. rewrite fold_left_app, sumZ_from. reflexivity.
Qed.

Lemma sumZ_filter {A : Type} (p : A -> bool) (h : A -> Z) (l : list A) :
  sumZ (map (fun x => if p x then h x else 0) l) = sumZ (map h (filter p l)).
Proof.
  induction l as [|x l IH]; [reflexivity|]. cbn [map filter].
  destruct (p x); cbn [map]; rewrite !sumZ_cons, IH; lia.
Qed.

Lemma sumZ_ones {A : Type} (l : list A) :
  sumZ (map (fun _ => 1) l) = Z.of_nat (List.length l).
Proof.
  induction l as [|x l IH]; [reflexivity|].
  cbn [map List.length]. rewrite sumZ_cons, IH. lia.
Qed.

Section Additive.

Import CostTracker Spec Tally.

(** A column of the triple that adds up: [calls] or [tokens]. *)
Variable f : Stats.t -> Z.
Hypothesis f_zero : f Stats.zero = 0.
Hypothesis f_add :
  forall t s : Stats.t,
    f (Stats.mk (Stats.calls t + Stats.calls s)
                (Stats.tokens t + Stats.tokens s)
                (Stats.cost t + Stats.cost s)%float) = f t + f s.

Lemma add_stats_set (totals : dict Stats.t) (k : string) (st : Stats.t) :
  add_stats totals (k, st) =
  dict_set k
    (Stats.mk (Stats.calls (total_for k totals) + Stats.calls st)
              (Stats.tokens (total_for k totals) + Stats.tokens st)
              (Stats.cost (total_for k totals) + Stats.cost st)%float)
    totals.
Proof.
  unfold add_stats, total_for, get_default, dict_mem.
  destruct (dict_get k totals) as [e|] eqn:E.
  - now rewrite E.
  - now rewrite dict_get_set_same, dict_set_set.
Qed.

Lemma bump_add_stats (key : string) (m : LLMCallMetrics.t) (d : dict Stats.t) :
  bump key m d = add_stats d (key, one m).
Proof. now rewrite bump_touch, add_stats_set. Qed.

Lemma entries_dict_set (a k : string) (v : Stats.t) (d : dict Stats.t) :
  sumZ (map f (entries_for a (dict_set k v d))) =
  sumZ (map f (entries_for a d)) +
  (if String.eqb k a
   then f v - match dict_get k d with Some o => f o | None => 0 end
   else 0).
Proof.
  unfold entries_for, values.
  induction d as [|[k0 v0] d IH]; cbn [dict_set dict_get filter map fst snd].
  - destruct (String.eqb k a); cbn [map snd]; rewrite ?sumZ_cons; unfold sumZ; simpl; lia.
  - destruct (String.eqb k k0) eqn:E; cbn [filter map fst snd].
    + apply String.eqb_eq in E. subst k0.
      destruct (String.eqb k a); cbn [map snd]; rewrite ?sumZ_cons; lia.
    + destruct (String.eqb k0 a); cbn [map snd]; rewrite ?sumZ_cons, IH; lia.
Qed.

Lemma entries_add_stats (a k : string) (st : Stats.t) (totals : dict Stats.t) :
  sumZ (map f (entries_for a (add_stats totals (k, st)))) =
  sumZ (map f (entries_for a totals)) + (if String.eqb k a then f st else 0).
Proof.
  rewrite add_stats_set, entries_dict_set, f_add.
  unfold total_for, get_default.
  destruct (String.eqb k a); [|reflexivity].
  destruct (dict_get k totals); rewrite ?f_zero; lia.
Qed.

Lemma total_for_add_stats (a k : string) (st : Stats.t) (totals : dict Stats.t) :
  f (total_for a (add_stats totals (k, st))) =
  f (total_for a totals) + (if String.eqb k a then f st else 0).
Proof.
  rewrite add_stats_set. unfold total_for at 1. rewrite get_default_set.
  rewrite (String.eqb_sym a k).
  destruct (String.eqb k a) eqn:E; [|unfold total_for; lia].
  apply String.eqb_eq in E. subst a. apply f_add.
Qed.

Lemma values_add_stats (k : string) (st : Stats.t) (totals : dict Stats.t) :
  sumZ (map f (values (add_stats totals (k, st)))) =
  sumZ (map f (values totals)) + f st.
Proof.
  rewrite add_stats_set, sumZ_dict_set, f_add.
  unfold total_for, get_default.
  destruct (dict_get k totals); rewrite ?f_zero; lia.
Qed.

Lemma entries_cons (a k : string) (st : Stats.t) (items : dict Stats.t) :
  sumZ (map f (entries_for a ((k, st) :: items))) =
  (if String.eqb k a then f st else 0) + sumZ (map f (entries_for a items)).
Proof.
  unfold entries_for, values. cbn [filter fst].
  destruct (String.eqb k a); cbn [map snd]; rewrite ?sumZ_cons; lia.
Qed.

Lemma total_for_fold (a : string) (items totals : dict Stats.t) :
  f (total_for a (fold_left add_stats items totals)) =
  f (total_for a totals) + sumZ (map f (entries_for a items)).
Proof.
  revert totals. induction items as [|[k st] items IH]; intros totals.
  - cbn. unfold sumZ. simpl. lia.
  - cbn [fold_left]. rewrite IH, total_for_add_stats, entries_cons. lia.
Qed.

Lemma values_fold (items totals : dict Stats.t) :
  sumZ (map f (values (fold_left add_stats items totals))) =
  sumZ (map f (values totals)) + sumZ (map f (values items)).
Proof.
  revert totals. induction items as [|[k st] items IH]; intros totals.
  - cbn [fold_left map]. unfold values. cbn [map]. change (sumZ []) with 0. lia.
  - cbn [fold_left]. rewrite IH, values_add_stats.
    unfold values. cbn [map snd]. rewrite sumZ_cons. lia.
Qed.

Lemma total_for_sessions (breakdown : Session.t -> dict Stats.t) (a : string)
    (ss : list Session.t) (totals : dict Stats.t) :
  f (total_for a
       (fold_left (fun totals s => fold_left add_stats (breakdown s) totals)
                  ss totals)) =
  f (total_for a totals) +
  sumZ (map (fun s => sumZ (map f (entries_for a (breakdown s)))) ss).
Proof.
  revert totals. induction ss as [|s ss IH]; intros totals.
  - cbn [fold_left map]. unfold values. cbn [map]. change (sumZ []) with 0. lia.
  - cbn [fold_left map]. rewrite IH, total_for_fold, sumZ_cons. lia.
Qed.

Lemma values_sessions (breakdown : Session.t -> dict Stats.t)
    (ss : list Session.t) (totals : dict Stats.t) :
  sumZ (map f (values
       (fold_left (fun totals s => fold_left add_stats (breakdown s) totals)
                  ss totals))) =
  sumZ (map f (values totals)) +
  sumZ (map (fun s => sumZ (map f (values (breakdown s)))) ss).
Proof.
  revert totals. induction ss as [|s ss IH]; intros totals.
  - cbn [fold_left map]. unfold values. cbn [map]. change (sumZ []) with 0. lia.
  - cbn [fold_left map]. rewrite IH, values_fold, sumZ_cons. lia.
Qed.

(** The total under [a] is the sum, over the sessions, of what their
    breakdowns hold under [a]. *)
Lemma total_for_totals_over (breakdown : Session.t -> dict Stats.t) (a : string)
    (sc : dict Session.t) :
  f (total_for a (totals_over breakdown sc)) =
  sumZ (map (fun s => sumZ (map f (entries_for a (breakdown s)))) (values sc)).
Proof.
  unfold totals_over. rewrite total_for_sessions.
  unfold total_for, get_default. cbn [dict_get]. rewrite f_zero. lia.
Qed.

Lemma values_totals_over (breakdown : Session.t -> dict Stats.t)
    (sc : dict Session.t) :
  sumZ (map f (values (totals_over breakdown sc))) =
  sumZ (map (fun s => sumZ (map f (values (breakdown s)))) (values sc)).
Proof.
  unfold totals_over. rewrite values_sessions. reflexivity.
Qed.

End Additive.

Section SessionSums.

Import CostTracker Spec Tally.

(** A quantity [g] of a rollup that starts at 0 and that each record
    folded in raises by [delta]. *)
Variable g : Session.t -> Z.
Variable delta : LLMCallMetrics.t -> Z.
Hypothesis g_new : forall m, g (new_session m) = 0.
Hypothesis g_fold : forall m s, g (fold_in m s) = g s + delta m.

Lemma sum_update (m : LLMCallMetrics.t) (sc : dict Session.t) :
  sumZ (map g (values (update_sessions m sc))) =
  sumZ (map g (values sc)) + delta m.
Proof.
  rewrite update_sessions_set, sumZ_dict_set, g_fold. unfold get_default.
  destruct (dict_get (LLMCallMetrics.session_id m) sc); rewrite ?g_new; lia.
Qed.

Lemma sum_replay (recs : list LLMCallMetrics.t) (sc : dict Session.t) :
  sumZ (map g (values (replay recs sc))) =
  sumZ (map g (values sc)) + sumZ (map delta recs).
Proof.
  revert sc. induction recs as [|m recs IH]; intros sc.
  - cbn [replay fold_left map]. change (sumZ []) with 0. lia.
  - change (replay (m :: recs) sc) with (replay recs (update_sessions m sc)).
    cbn [map]. rewrite IH, sum_update, sumZ_cons. lia.
Qed.

Lemma at_update (m : LLMCallMetrics.t) (sid : string) (sc : dict Session.t) :
  at_session g sid (update_sessions m sc) =
  at_session g sid sc +
  (if String.eqb (LLMCallMetrics.session_id m) sid then delta m else 0).
Proof.
  unfold at_session. rewrite update_sessions_set.
  destruct (String.eqb (LLMCallMetrics.session_id m) sid) eqn:E.
  - apply String.eqb_eq in E. subst sid.
    rewrite dict_get_set_same, g_fold. unfold get_default.
    destruct (dict_get (LLMCallMetrics.session_id m) sc); rewrite ?g_new; lia.
  - rewrite dict_get_set_other; [lia | now rewrite String.eqb_sym].
Qed.

Lemma at_replay (recs : list LLMCallMetrics.t) (sid : string) (sc : dict Session.t) :
  at_session g sid (replay recs sc) =
  at_session g sid sc + sumZ (map delta (of_session sid recs)).
Proof.
  revert sc. induction recs as [|m recs IH]; intros sc.
  - cbn [replay fold_left of_session filter map]. change (sumZ []) with 0. lia.
  - change (replay (m :: recs) sc) with (replay recs (update_sessions m sc)).
    rewrite IH, at_update. unfold of_session. cbn [filter].
    destruct (String.eqb (LLMCallMetrics.session_id m) sid);
      cbn [map]; rewrite ?sumZ_cons; lia.
Qed.

End SessionSums.

Section SummaryTheorems.

Import CostTracker Spec Tally.



(** What a record adds, under key [a], to the breakdowns of all the
    sessions together. *)
Lemma entries_replay (f : Stats.t -> Z)
    (breakdown : Session.t -> dict Stats.t) (key : LLMCallMetrics.t -> string)
    (a : string) (recs : list LLMCallMetrics.t) (sc : dict Session.t) :
  f Stats.zero = 0 ->
  (forall t s, f (Stats.mk (Stats.calls t + Stats.calls s)
                           (Stats.tokens t + Stats.tokens s)
                           (Stats.cost t + Stats.cost s)%float) = f t + f s) ->
  (forall m, breakdown (new_session m) = []) ->
  (forall m s, breakdown (fold_in m s) = bump (key m) m (breakdown s)) ->
  f (total_for a (totals_over breakdown (replay recs sc))) =
  f (total_for a (totals_over breakdown sc)) +
  sumZ (map (fun m => f (one m)) (filter (fun m => String.eqb (key m) a) recs)).
Proof.
  intros F0 FA BN BF.
  rewrite !(total_for_totals_over f F0 FA), <- sumZ_filter.
  apply sum_replay.
  - intros m. now rewrite BN.
  - intros m s. now rewrite BF, bump_add_stats, (entries_add_stats f F0 FA).
Qed.

Lemma values_replay (f : Stats.t -> Z)
    (breakdown : Session.t -> dict Stats.t) (key : LLMCallMetrics.t -> string)
    (recs : list LLMCallMetrics.t) (sc : dict Session.t) :
  f Stats.zero = 0 ->
  (forall t s, f (Stats.mk (Stats.calls t + Stats.calls s)
                           (Stats.tokens t + Stats.tokens s)
                           (Stats.cost t + Stats.cost s)%float) = f t + f s) ->
  (forall m, breakdown (new_session m) = []) ->
  (forall m s, breakdown (fold_in m s) = bump (key m) m (breakdown s)) ->
  sumZ (map f (values (totals_over breakdown (replay recs sc)))) =
  sumZ (map f (values (totals_over breakdown sc))) +
  sumZ (map (fun m => f (one m)) recs).
Proof.
  intros F0 FA BN BF.
  rewrite !(values_totals_over f F0 FA).
  apply sum_replay.
  - intros m. now rewrite BN.
  - intros m s. now rewrite BF, bump_add_stats, (values_add_stats f F0 FA).
Qed.

Lemma total_calls_replay (recs : list LLMCallMetrics.t) (sc : dict Session.t) :
  sumZ (map Session.total_calls (values (replay recs sc))) =
  sumZ (map Session.total_calls (values sc)) + Z.of_nat (List.length recs).
Proof.
  rewrite <- sumZ_ones. now apply sum_replay.
Qed.

Lemma total_tokens_replay (recs : list LLMCallMetrics.t) (sc : dict Session.t) :
  sumZ (map Session.total_tokens (values (replay recs sc))) =
  sumZ (map Session.total_tokens (values sc)) +
  sumZ (map LLMCallMetrics.total_tokens recs).
Proof. now apply sum_replay. Qed.

(** X1.  Whatever state the tracker starts from, a sequence of
    [track_call] invocations raises the [total_calls] of
    [generate_summary()] by the number of Call Records returned and its
    [total_tokens] by the sum of their [total_tokens]. *)
Theorem summary_totals_follow_records (self : t) (cs : list call) :
  let recs := records (fst (run cs self)) in
  let before := generate_summary self in
  let after := generate_summary (snd (run cs self)) in
  Summary.total_calls after =
    Summary.total_calls before + Z.of_nat (List.length recs) /\
  Summary.total_tokens after =
    Summary.total_tokens before + sumZ (map LLMCallMetrics.total_tokens recs).
Proof.
  cbv zeta. unfold generate_summary.
  cbn [Summary.total_calls Summary.total_tokens].
  rewrite run_sessions. split.
  - apply total_calls_replay.
  - apply total_tokens_replay.
Qed.

(** X2.  Whatever state the tracker starts from, for every agent name
    [a] the [by_agent] total of [generate_summary()] under [a] (zero when
    absent) grows by the number and by the token sum of the Call Records
    of agent [a], over all sessions together; likewise [by_model]. *)
Theorem summary_breakdowns_follow_records (self : t) (cs : list call) (a : string) :
  let recs := records (fst (run cs self)) in
  let before := generate_summary self in
  let after := generate_summary (snd (run cs self)) in
  (Stats.calls (total_for a (Summary.by_agent after)) =
     Stats.calls (total_for a (Summary.by_agent before))
     + Z.of_nat (List.length (of_agent a recs)) /\
   Stats.tokens (total_for a (Summary.by_agent after)) =
     Stats.tokens (total_for a (Summary.by_agent before))
     + sumZ (map LLMCallMetrics.total_tokens (of_agent a recs))) /\
  (Stats.calls (total_for a (Summary.by_model after)) =
     Stats.calls (total_for a (Summary.by_model before))
     + Z.of_nat (List.length (of_model a recs)) /\
   Stats.tokens (total_for a (Summary.by_model after)) =
     Stats.tokens (total_for a (Summary.by_model before))
     + sumZ (map LLMCallMetrics.total_tokens (of_model a recs))).
Proof.
  cbv zeta. unfold generate_summary.
  cbn [Summary.by_agent Summary.by_model].
  rewrite run_sessions. unfold of_agent, of_model.
  repeat split.
  - rewrite <- sumZ_ones.
    now apply (entries_replay Stats.calls Session.agents LLMCallMetrics.agent_name).
  - now apply (entries_replay Stats.tokens Session.agents LLMCallMetrics.agent_name).
  - rewrite <- sumZ_ones.
    now apply (entries_replay Stats.calls Session.models LLMCallMetrics.model).
  - now apply (entries_replay Stats.tokens Session.models LLMCallMetrics.model).
Qed.

(** X3.  If the totals of [generate_summary()] are the sums of its
    [by_agent] and of its [by_model] columns, they still are after any
    sequence of [track_call] invocations; they are for a tracker with no
    sessions. *)
Theorem summary_stays_consistent (self : t) (cs : list call) :
  summary_consistent (generate_summary self) ->
  summary_consistent (generate_summary (snd (run cs self))).
Proof.
  unfold summary_consistent, generate_summary.
  cbn [Summary.total_calls Summary.total_tokens Summary.by_agent Summary.by_model].
  intros (A & B & C & D). rewrite run_sessions.
  rewrite total_calls_replay, total_tokens_replay.
  rewrite (values_replay Stats.calls Session.agents LLMCallMetrics.agent_name),
          (values_replay Stats.calls Session.models LLMCallMetrics.model),
          (values_replay Stats.tokens Session.agents LLMCallMetrics.agent_name),
          (values_replay Stats.tokens Session.models LLMCallMetrics.model);
    try reflexivity.
  rewrite <- A, <- B, <- C, <- D.
  cbn [one Stats.calls Stats.tokens]. rewrite sumZ_ones. now repeat split.
Qed.

Lemma summary_consistent_three_calls :
  summary_consistent (generate_summary Scenario.fresh) /\
  summary_consistent
    (generate_summary (snd (run Scenario.three_calls Scenario.fresh))) /\
  Summary.total_calls
    (generate_summary (snd (run Scenario.three_calls Scenario.fresh))) = 3.
Proof.
  assert (summary_consistent (generate_summary Scenario.fresh)) as H
    by (now repeat split).
  split; [exact H|]. split; [|reflexivity].
  exact (summary_stays_consistent Scenario.fresh Scenario.three_calls H).
Defined.

End SummaryTheorems.

(* ================================================================== *)
(** * Sessions over time                                                *)
(* ================================================================== *)

Section SessionsOverTime.

Import CostTracker Spec Tally.

Lemma keys_update (m : LLMCallMetrics.t) (sc : dict Session.t) :
  keys (update_sessions m sc) =
  if dict_mem (LLMCallMetrics.session_id m) sc then keys sc
  else keys sc ++ [LLMCallMetrics.session_id m].
Proof. rewrite update_sessions_set. apply keys_dict_set. Qed.

Lemma keys_replay (recs : list LLMCallMetrics.t) (sc : dict Session.t) :
  NoDup (keys sc) ->
  (exists new, keys (replay recs sc) = keys sc ++ new) /\
  NoDup (keys (replay recs sc)) /\
  forall k, In k (keys (replay recs sc)) <->
            In k (keys sc) \/ In k (map LLMCallMetrics.session_id recs).
Proof.
  revert sc. induction recs as [|m recs IH]; intros sc N.
  - cbn. split; [exists []; now rewrite app_nil_r|]. split; [exact N|tauto].
  - change (replay (m :: recs) sc) with (replay recs (update_sessions m sc)).
    pose proof (keys_update m sc) as K.
    destruct (dict_mem (LLMCallMetrics.session_id m) sc) eqn:M.
    + rewrite <- K in N. destruct (IH _ N) as ((new & E) & N' & I).
      rewrite K in E. split; [now exists new|]. split; [exact N'|].
      intros k. rewrite I, K. cbn [map In].
      apply dict_mem_keys in M. split; [tauto|].
      intros [X|[X|X]]; subst; tauto.
    + assert (NoDup (keys (update_sessions m sc))) as N1.
      { rewrite K. apply NoDup_app; [exact N | repeat constructor; tauto |].
        intros k X [Y|[]]. subst k. apply dict_mem_keys in X. congruence. }
      destruct (IH _ N1) as ((new & E) & N' & I).
      split; [exists (LLMCallMetrics.session_id m :: new);
              now rewrite E, K, <- app_assoc|].
      split; [exact N'|].
      intros k. rewrite I, K, in_app_iff. cbn [map In]. tauto.
Qed.

(** X4.  [get_all_sessions()] lists every session once: after any
    sequence of [track_call] invocations the session ids already present
    come first, in their old order, followed by ids that are new; no id
    occurs twice; the ids are those present before together with those
    of the Call Records returned; and [total_sessions] of
    [generate_summary()] is their number. *)
Theorem sessions_are_listed_once (self : t) (cs : list call) :
  NoDup (keys (get_all_sessions self)) ->
  let recs := records (fst (run cs self)) in
  let self' := snd (run cs self) in
  (exists new, keys (get_all_sessions self') = keys (get_all_sessions self) ++ new) /\
  NoDup (keys (get_all_sessions self')) /\
  (forall k, In k (keys (get_all_sessions self')) <->
             In k (keys (get_all_sessions self)) \/
             In k (map LLMCallMetrics.session_id recs)) /\
  Summary.total_sessions (generate_summary self') =
    Z.of_nat (List.length (keys (get_all_sessions self'))).
Proof.
  intros N. cbv zeta. unfold get_all_sessions in *. rewrite run_sessions.
  destruct (keys_replay (records (fst (run cs self))) _ N) as (A & B & C).
  repeat split; try assumption; try apply C.
  unfold generate_summary, keys. cbn [Summary.total_sessions].
  now rewrite run_sessions, length_map.
Qed.

Lemma sessions_of_interleaved_run :
  NoDup (keys (get_all_sessions Scenario.fresh)) /\
  keys (get_all_sessions (snd (run Scenario.interleaved Scenario.fresh)))
    = ["s1"; "s2"] /\
  NoDup (keys (get_all_sessions (snd (run Scenario.interleaved Scenario.fresh)))) /\
  Summary.total_sessions
    (generate_summary (snd (run Scenario.interleaved Scenario.fresh))) = 2.
Proof.
  assert (NoDup (keys (get_all_sessions Scenario.fresh))) as N by constructor.
  destruct (sessions_are_listed_once Scenario.fresh Scenario.interleaved N)
    as (_ & D & _ & T).
  split; [exact N|]. split; [reflexivity|]. split; [exact D|].
  rewrite T. reflexivity.
Defined.

Lemma update_keeps_session (m : LLMCallMetrics.t) (sid : string)
    (sc : dict Session.t) (s : Session.t) :
  dict_get sid sc = Some s ->
  exists s', dict_get sid (update_sessions m sc) = Some s' /\
             Session.start_time s' = Session.start_time s /\
             Session.session_id s' = Session.session_id s.
Proof.
  intros E. rewrite update_sessions_set.
  destruct (String.eqb sid (LLMCallMetrics.session_id m)) eqn:K.
  - apply String.eqb_eq in K. subst sid. rewrite dict_get_set_same.
    unfold get_default. rewrite E. eexists. split; [reflexivity|]. now split.
  - rewrite dict_get_set_other by exact K. now exists s.
Qed.

Lemma replay_keeps_session (recs : list LLMCallMetrics.t) (sid : string)
    (sc : dict Session.t) (s : Session.t) :
  dict_get sid sc = Some s ->
  exists s', dict_get sid (replay recs sc) = Some s' /\
             Session.start_time s' = Session.start_time s /\
             Session.session_id s' = Session.session_id s.
Proof.
  revert sc s. induction recs as [|m recs IH]; intros sc s E.
  - now exists s.
  - change (replay (m :: recs) sc) with (replay recs (update_sessions m sc)).
    destruct (update_keeps_session m sid sc s E) as (s1 & E1 & A1 & B1).
    destruct (IH _ _ E1) as (s' & E' & A' & B').
    exists s'. split; [exact E'|]. split; congruence.
Qed.

(** X5.  Running totals continue from whatever the tracker holds, for
    instance rollups loaded from a snapshot: after any sequence of
    [track_call] invocations, a session's [total_calls] is its earlier
    value (0 for a new session) plus the number of Call Records returned
    for it, its [total_tokens] the earlier value plus their token sum;
    and a session that existed is still there, with the [session_id] and
    [start_time] it had. *)
Theorem rollup_continues_from_any_state (self : t) (cs : list call) (sid : string) :
  let recs := records (fst (run cs self)) in
  let self' := snd (run cs self) in
  at_session Session.total_calls sid (get_all_sessions self') =
    at_session Session.total_calls sid (get_all_sessions self)
    + Z.of_nat (List.length (of_session sid recs)) /\
  at_session Session.total_tokens sid (get_all_sessions self') =
    at_session Session.total_tokens sid (get_all_sessions self)
    + sumZ (map LLMCallMetrics.total_tokens (of_session sid recs)) /\
  match get_session_cost sid self with
  | Some s =>
      exists s', get_session_cost sid self' = Some s' /\
                 Session.start_time s' = Session.start_time s /\
                 Session.session_id s' = Session.session_id s
  | None => True
  end.
Proof.
  cbv zeta. unfold get_all_sessions, get_session_cost. rewrite run_sessions.
  split; [|split].
  - rewrite <- sumZ_ones. now apply at_replay.
  - now apply at_replay.
  - destruct (dict_get sid (session_costs self)) as [s|] eqn:E; [|exact I].
    now apply replay_keeps_session.
Qed.

Lemma last_any_default {A : Type} (l : list A) (x d d' : A) :
  last (x :: l) d = last (x :: l) d'.
Proof.
  revert x. induction l as [|y l IH]; intros x; [reflexivity|].
  change (last (x :: y :: l) d) with (last (y :: l) d).
  change (last (x :: y :: l) d') with (last (y :: l) d'). apply IH.
Qed.

Lemma replay_timestamps (recs : list LLMCallMetrics.t) (sid : string)
    (sc : dict Session.t) :
  match of_session sid recs with
  | [] => dict_get sid (replay recs sc) = dict_get sid sc
  | first :: rest =>
      exists s', dict_get sid (replay recs sc) = Some s' /\
                 Session.last_update s' =
                   LLMCallMetrics.timestamp (last (first :: rest) first) /\
                 Session.start_time s' =
                   match dict_get sid sc with
                   | Some s => Session.start_time s
                   | None => LLMCallMetrics.timestamp first
                   end
  end.
Proof.
  revert sc. induction recs as [|m recs IH]; intros sc; [reflexivity|].
  change (replay (m :: recs) sc) with (replay recs (update_sessions m sc)).
  specialize (IH (update_sessions m sc)).
  unfold of_session in *. cbn [filter].
  destruct (String.eqb (LLMCallMetrics.session_id m) sid) eqn:K.
  - apply String.eqb_eq in K. subst sid.
    assert (exists s1, dict_get (LLMCallMetrics.session_id m) (update_sessions m sc)
                       = Some s1 /\
                       Session.last_update s1 = LLMCallMetrics.timestamp m /\
                       Session.start_time s1 =
                         match dict_get (LLMCallMetrics.session_id m) sc with
                         | Some s => Session.start_time s
                         | None => LLMCallMetrics.timestamp m
                         end) as (s1 & E1 & L1 & S1).
    { rewrite update_sessions_set, dict_get_set_same. eexists.
      split; [reflexivity|]. split; [reflexivity|].
      unfold get_default.
      now destruct (dict_get (LLMCallMetrics.session_id m) sc). }
    destruct (filter _ recs) as [|f rest].
    + exists s1. rewrite IH. now repeat split.
    + destruct IH as (s' & E' & L' & S'). exists s'. split; [exact E'|].
      rewrite E1 in S'. split; [|congruence].
      rewrite L'. f_equal.
      change (last (m :: f :: rest) m) with (last (f :: rest) m).
      apply last_any_default.
  - assert (dict_get sid (update_sessions m sc) = dict_get sid sc) as E.
    { rewrite update_sessions_set. apply dict_get_set_other.
      now rewrite String.eqb_sym. }
    now rewrite E in IH.
Qed.

(** X6.  After any sequence of [track_call] invocations, a session for
    which no Call Record was returned is exactly as it was (or still
    absent); a session with records has as [last_update] the timestamp
    of its last record, and as [start_time] the one it had, or the
    timestamp of its first record when it is new. *)
Theorem rollup_timestamps (self : t) (cs : list call) (sid : string) :
  let recs := records (fst (run cs self)) in
  let self' := snd (run cs self) in
  match of_session sid recs with
  | [] => get_session_cost sid self' = get_session_cost sid self
  | first :: rest =>
      exists s', get_session_cost sid self' = Some s' /\
                 Session.last_update s' =
                   LLMCallMetrics.timestamp (last (first :: rest) first) /\
                 Session.start_time s' =
                   match get_session_cost sid self with
                   | Some s => Session.start_time s
                   | None => LLMCallMetrics.timestamp first
                   end
  end.
Proof.
  cbv zeta. unfold get_session_cost. rewrite run_sessions.
  apply replay_timestamps.
Qed.



(** X8.  A call with zero counts costs nothing under every model, known
    or not, and is tracked like any other: [track_call] returns a record
    with all three costs 0.0 and the session's [total_calls] goes up by
    one. *)
Theorem zero_counts_are_tracked (env : io)
    (session_id agent_name model provider : string) (latency_ms : float)
    (self : t) :
  calculate_cost model 0 0 = ret (Costs.mk 0 0 0) /\
  let out := track_call env session_id agent_name model provider 0 0
               latency_ms self in
  fst out =
    inr (LLMCallMetrics.mk (now env) session_id agent_name model provider
           0 0 0 0 0 0 latency_ms) /\
  at_session Session.total_calls session_id (get_all_sessions (snd out)) =
    at_session Session.total_calls session_id (get_all_sessions self) + 1.
Proof.
  assert (calculate_cost model 0 0 = ret (Costs.mk 0 0 0)) as C.
  { rewrite calculate_cost_unfold. unfold get_default, MODEL_PRICING.
    cbn [dict_get].
    repeat (destruct (String.eqb model _); [reflexivity|]). reflexivity. }
  split; [exact C|]. cbv zeta. unfold track_call. rewrite C. unfold ret.
  cbn [fst snd Costs.input_cost Costs.output_cost Costs.total_cost].
  split; [reflexivity|].
  unfold get_all_sessions, _update_session, _save_session_costs, _log_to_csv, emit.
  destruct (csv_append_ok env), (json_dump env); cbn [session_costs];
    rewrite (at_update Session.total_calls (fun _ => 1)); cbn;
    rewrite ?String.eqb_refl; reflexivity.
Qed.

(** X9.  Construction never rewrites what is on disk: when [__init__]
    completes, the snapshot file is as it was and the log holds the
    lines it held (or just the header when there was no log); and
    constructing again against the resulting directory gives the same
    session rollups and leaves the same files. *)
Theorem construction_preserves_files
    (ienv ienv' : init_io) (disk : files) (self : t) :
  __init__ ienv disk = inr self ->
  mkdir_ok ienv' = true ->
  session_file self = disk_session disk /\
  csv_file self =
    Some (match disk_csv disk with Some rows => rows | None => [CSV_HEADER] end) /\
  exists again : t,
    __init__ ienv' (files_of self) = inr again /\
    session_costs again = session_costs self /\
    files_of again = files_of self.
Proof.
  unfold __init__, _init_csv, bind, ret, raise. intros I M. rewrite M.
  destruct (mkdir_ok ienv); [|discriminate]. cbn [negb] in *.
  destruct (disk_session disk) as [[d|]|];
    (destruct (disk_csv disk); [|destruct (csv_create_ok ienv)]);
    try discriminate; injection I as <-; cbn;
    (split; [reflexivity|]; split; [reflexivity|]; eexists;
     split; [reflexivity|]; now split).
Qed.

Lemma construction_twice_on_empty_directory :
  exists self again : t,
    __init__ (mk_init_io true true) (mk_files None None) = inr self /\
    mkdir_ok (mk_init_io true false) = true /\
    __init__ (mk_init_io true false) (files_of self) = inr again /\
    csv_file again = Some [CSV_HEADER] /\
    session_costs again = [].
Proof.
  destruct (construction_preserves_files (mk_init_io true true)
              (mk_init_io true false) (mk_files None None) Scenario.fresh
              eq_refl eq_refl) as (_ & _ & again & A & B & C).
  exists Scenario.fresh, again.
  split; [reflexivity|]. split; [reflexivity|]. split; [exact A|].
  injection A as <-. split; reflexivity.
Defined.

End SessionsOverTime.

(* ================================================================== *)
(** * The analysis tool on its own                                      *)
(* ================================================================== *)

Section Analysis.

Import CostTracker CostAnalysis Spec Tally.













(** The costs of the two need not agree: the summary adds up the
    subtotals of the sessions, the analysis the rows in log order. *)
Example analysis_cost_differs_from_summary :
  let self' := snd (run Scenario.two_sessions_one_agent Scenario.fresh) in
  option_map Stats.cost
    (dict_get "B" (Summary.by_agent (generate_summary self')))
    = Some 0.6%float /\
  exists by_agent : dict Stats.t,
    (rows <- load_cost_log (csv_file self') ;; analyze_by_agent rows)
      = ret by_agent /\
    option_map Stats.cost (dict_get "B" by_agent) = Some 0.6000000000000001%float.
Proof. cbv zeta. split; [reflexivity|]. eexists. split; reflexivity. Qed.

(** X12.  [load_cost_log] skips a blank line, and raises TypeError on a
    line of the tracker's log that was cut short after its first [n]
    cells ([0 < n < 12]), whatever follows it. *)
Theorem load_cost_log_on_damaged_lines
    (m : LLMCallMetrics.t) (n : nat) (before after : list LLMCallMetrics.t)
    (rest : list csv_row) :
  (0 < n < 12)%nat ->
  load_cost_log (Some (CSV_HEADER :: map row_of before ++ [] :: map row_of after))
    = ret (map loaded_row (before ++ after)) /\
  load_cost_log (Some (CSV_HEADER :: firstn n (row_of m) :: rest))
    = raise TypeError.
Proof.
  intros N. split.
  - unfold load_cost_log, DictReader.
    rewrite filter_app. cbn [filter blank negb].
    rewrite <- filter_app, <- map_app.
    change (map (fun cells => zip_row CSV_HEADER cells [])
                (filter (fun line => negb (blank line))
                        (map row_of (before ++ after))))
      with (DictReader (CSV_HEADER :: map row_of (before ++ after))).
    rewrite DictReader_log. apply convert_all_loaded.
  - unfold load_cost_log, DictReader.
    do 12 (destruct n as [|n]; [try lia; reflexivity|]). lia.
Qed.

Lemma load_cost_log_on_half_a_line :
  (0 < 7 < 12)%nat /\
  load_cost_log
    (Some [CSV_HEADER;
           [VStr "t1"; VStr "s1"; VStr "Planner"; VStr "gpt-4o"; VStr "openai";
            VInt 1000; VInt 500]])
    = raise TypeError.
Proof.
  split; [lia|].
  refine (proj2 (load_cost_log_on_damaged_lines
                   (LLMCallMetrics.mk "t1" "s1" "Planner" "gpt-4o" "openai"
                      1000 500 1500 0 0 0 0)
                   7 [] [] [] _)).
  lia.
Defined.

End Analysis.

(* ================================================================== *)
(** * More on the trace logger                                          *)
(* ================================================================== *)

Section MoreTraces.

Import Observability Tally.

Lemma perform_appends_one (op : operation) (self : TraceLogger) :
  is_clear op = false ->
  exists ev : event, traces (perform op self) = traces self ++ [ev].
Proof.
  destruct op as [uuid t w u | t st e | t ty d | t a r md | t a act | t tn args
                 | t msg ex ctx | ]; cbn [is_clear perform]; intros C;
    try discriminate; eexists; reflexivity.
Qed.

(** X13.  Every method of the trace logger other than [clear_traces]
    appends exactly one event and keeps the earlier ones: after a
    sequence of such calls the trace holds the events it held, followed
    by as many new events as there were calls. *)
Theorem every_call_logs_one_event (ops : list operation) (self : TraceLogger) :
  forallb (fun op => negb (is_clear op)) ops = true ->
  exists evs : list event,
    get_traces (perform_all ops self) = get_traces self ++ evs /\
    List.length evs = List.length ops.
Proof.
  unfold get_traces. revert self.
  induction ops as [|op ops IH]; intros self F.
  - exists []. now rewrite app_nil_r.
  - cbn [forallb] in F. apply andb_prop in F. destruct F as (C & F).
    apply negb_true_iff in C.
    destruct (perform_appends_one op self C) as (ev & E).
    destruct (IH (perform op self) F) as (evs & E' & L).
    exists (ev :: evs). cbn [perform_all fold_left List.length].
    unfold perform_all in E'. rewrite E', E, <- app_assoc, L. now split.
Qed.

Lemma three_calls_log_three_events :
  let ops := [ StartWorkflow "id-1" "t0" "recon" "scan";
               LogAgentResponse "t1" "Planner" "done" None;
               EndWorkflow "t2" "completed" None ] in
  forallb (fun op => negb (is_clear op)) ops = true /\
  exists evs : list event,
    get_traces (perform_all ops __init__) = evs /\ List.length evs = 3%nat.
Proof.
  cbv zeta. split; [reflexivity|].
  destruct (every_call_logs_one_event
              [ StartWorkflow "id-1" "t0" "recon" "scan";
                LogAgentResponse "t1" "Planner" "done" None;
                EndWorkflow "t2" "completed" None ] __init__ eq_refl)
    as (evs & E & L).
  exists evs. split; [exact E | exact L].
Defined.

(** X14.  [start_workflow] makes its new id and name the active ones
    whatever was active before, without touching the events already
    logged: an [end_workflow] that follows reports the new id, logs the
    new name, and counts the earlier events plus the two of this
    workflow. *)
Theorem start_workflow_replaces_active_trace
    (uuid now workflow_name user_input now2 status : string)
    (error : option string) (self : TraceLogger) :
  let started := start_workflow uuid now workflow_name user_input self in
  let out := end_workflow now2 status error (snd started) in
  fst started = uuid /\
  current_trace_id (snd started) = Some uuid /\
  current_workflow (snd started) = Some workflow_name /\
  dict_get "trace_id" (fst out) = Some (VStr uuid) /\
  dict_get "num_events" (fst out) =
    Some (VInt (Z.of_nat (List.length (traces self)) + 2)) /\
  exists ev1 ev2 : event,
    traces (snd out) = traces self ++ [ev1; ev2] /\
    type ev1 = "workflow_start" /\
    dict_get "trace_id" (data ev1) = Some (VStr uuid) /\
    type ev2 = "workflow_end" /\
    dict_get "trace_id" (data ev2) = Some (VStr uuid) /\
    dict_get "workflow_name" (data ev2) = Some (VStr workflow_name).
Proof.
  cbv zeta. split; [reflexivity|]. split; [reflexivity|]. split; [reflexivity|].
  split; [reflexivity|]. split.
  - unfold end_workflow, start_workflow, log_event.
    cbn [fst snd traces dict_get String.eqb Ascii.eqb Bool.eqb].
    rewrite !length_app. cbn [List.length]. do 2 f_equal. lia.
  - destruct (end_workflow_event now2 status error
                (snd (start_workflow uuid now workflow_name user_input self)))
      as (p & T & A & B & _).
    eexists. exists (mk_event "workflow_end" now2 p).
    split; [rewrite T; cbn [start_workflow snd log_event traces];
            rewrite <- app_assoc; reflexivity|].
    now repeat split.
Qed.

(** X15.  [end_workflow] records the error text in the workflow_end
    event only when it is a non-empty string: with no error or with the
    empty string the event has no "error" key; the returned summary
    never has one. *)
Theorem end_workflow_records_nonempty_error
    (now status : string) (error : option string) (self : TraceLogger) :
  let out := end_workflow now status error self in
  dict_get "error" (fst out) = None /\
  dict_get "status" (fst out) = Some (VStr status) /\
  exists payload : dict value,
    traces (snd out) = traces self ++ [mk_event "workflow_end" now payload] /\
    dict_get "status" payload = Some (VStr status) /\
    dict_get "error" payload =
      match error with
      | Some text => if String.eqb text "" then None else Some (VStr text)
      | None => None
      end.
Proof.
  cbv zeta. split; [reflexivity|]. split; [reflexivity|].
  unfold end_workflow, log_event, truthy. cbn [snd traces value_of].
  destruct error as [text|]; [destruct (String.eqb text "")|];
    eexists; (split; [reflexivity|]); now split.
Qed.

End MoreTraces.

(* ================================================================== *)
(** * The task tracker                                                  *)
(* ================================================================== *)

Section Tasks.

Import Metrics.

Lemma lower_char_idempotent (c : ascii) :
  lower_char (lower_char c) = lower_char c.
Proof.
  destruct c as [b0 b1 b2 b3 b4 b5 b6 b7].
  destruct b0, b1, b2, b3, b4, b5, b6, b7; reflexivity.
Qed.

Lemma lower_idempotent (s : string) : lower (lower s) = lower s.
Proof.
  induction s as [|c s IH]; [reflexivity|].
  cbn [lower]. now rewrite lower_char_idempotent, IH.
Qed.

(** X16.  [log_llm_call] prices a model by its lower-cased name: the
    cost for a model string is the cost for its lower-cased form, so two
    spellings that differ only in letter case cost the same. *)
Theorem pricing_ignores_case (model model' : string) (input_tokens output_tokens : Z) :
  lower model = lower model' ->
  call_cost model input_tokens output_tokens =
    call_cost model' input_tokens output_tokens /\
  call_cost model input_tokens output_tokens =
    call_cost (lower model) input_tokens output_tokens.
Proof.
  intros E. unfold call_cost. rewrite lower_idempotent, E. now split.
Qed.

Lemma pricing_of_upper_case_name :
  lower "GPT-4o" = lower "gpt-4O" /\
  call_cost "GPT-4o" 1000000 0 = call_cost "gpt-4O" 1000000 0 /\
  call_cost "GPT-4o" 1000000 0 = ret 2.5%float.
Proof.
  split; [reflexivity|].
  destruct (pricing_ignores_case "GPT-4o" "gpt-4O" 1000000 0 eq_refl) as (A & B).
  split; [exact A|]. rewrite B. reflexivity.
Defined.

(** X17.  A call logged while no task is active is dropped without a
    trace: on a new tracker, after the current task has been ended, and
    while the current task id is the empty string, [log_llm_call]
    returns normally and changes nothing. *)
Theorem calls_without_active_task_are_dropped
    (now t0 t1 t1' : float) (model id : string)
    (input_tokens output_tokens : Z) (self : t) :
  log_llm_call now model input_tokens output_tokens __init__ = (ret tt, __init__) /\
  (let ended := snd (end_task t1 t1' id (snd (start_task t0 id self))) in
   log_llm_call now model input_tokens output_tokens ended = (ret tt, ended)) /\
  (let started := snd (start_task t0 "" self) in
   log_llm_call now model input_tokens output_tokens started = (ret tt, started)).
Proof.
  split; [reflexivity|]. split; [|reflexivity].
  cbv zeta. unfold log_llm_call, no_active_task, end_task, start_task.
  cbn [snd tasks current_task_id].
  rewrite dict_get_set_same. cbn [snd tasks current_task_id].
  rewrite String.eqb_refl. reflexivity.
Qed.

Lemma length_dict_set {V : Type} (k : string) (v : V) (d : dict V) :
  List.length (dict_set k v d) =
  if dict_mem k d then List.length d else S (List.length d).
Proof.
  unfold dict_mem. induction d as [|[k0 v0] d IH]; cbn; [reflexivity|].
  destruct (String.eqb k k0); cbn; [reflexivity|].
  rewrite IH. now destruct (dict_get k d).
Qed.

Lemma active_task (self : t) :
  no_active_task self = false ->
  exists id task, current_task_id self = Some id /\
                  dict_get id (tasks self) = Some task.
Proof.
  unfold no_active_task, dict_mem.
  destruct (current_task_id self) as [id|]; [|discriminate].
  destruct (dict_get id (tasks self)) as [task|] eqn:G.
  - intros _. now exists id, task.
  - cbn [negb]. rewrite orb_true_r. discriminate.
Qed.

(** X18.  While a task is active, [log_llm_call] either raises what the
    cost computation raises (OverflowError, for a count too large to
    divide into a float) and changes nothing, or returns after adding
    exactly one call to the current task:
    [get_stats()] then shows one more call, the input and output tokens
    raised by the counts given, and the same number of tasks. *)
Theorem logged_call_is_counted (now : float) (model : string)
    (input_tokens output_tokens : Z) (self : t) :
  no_active_task self = false ->
  let out := log_llm_call now model input_tokens output_tokens self in
  match call_cost model input_tokens output_tokens with
  | inl e => out = (raise e, self)
  | inr _ =>
      fst out = ret tt /\
      current_task_id (snd out) = current_task_id self /\
      s_num_calls (get_stats (snd out)) = s_num_calls (get_stats self) + 1 /\
      s_total_input_tokens (get_stats (snd out)) =
        s_total_input_tokens (get_stats self) + input_tokens /\
      s_total_output_tokens (get_stats (snd out)) =
        s_total_output_tokens (get_stats self) + output_tokens /\
      s_total_tokens (get_stats (snd out)) =
        s_total_tokens (get_stats self) + (input_tokens + output_tokens) /\
      s_num_tasks (get_stats (snd out)) = s_num_tasks (get_stats self)
  end.
Proof.
  intros A. cbv zeta. unfold log_llm_call. rewrite A.
  destruct (active_task self A) as (id & task & C & G).
  destruct (call_cost model input_tokens output_tokens) as [e|c]; [reflexivity|].
  rewrite C, G. cbn [fst snd current_task_id].
  split; [reflexivity|]. split; [reflexivity|].
  unfold get_stats.
  cbn [s_num_calls s_total_input_tokens s_total_output_tokens s_total_tokens
       s_num_tasks tasks].
  rewrite !sumZ_dict_set, G, length_dict_set.
  unfold dict_mem. rewrite G.
  unfold total_input_tokens, total_output_tokens. cbn [llm_calls].
  rewrite !map_app, !length_app. cbn [map List.length].
  rewrite !sumZ_snoc. cbn [Metrics.input_tokens Metrics.output_tokens].
  repeat split; lia.
Qed.

Lemma logged_call_after_start_task :
  let self := snd (start_task 0 "task-1" __init__) in
  no_active_task self = false /\
  let out := log_llm_call 1 "gpt-4o" 1000 500 self in
  fst out = ret tt /\
  s_num_calls (get_stats (snd out)) = 1 /\
  s_total_tokens (get_stats (snd out)) = 1500.
Proof.
  cbv zeta. split; [reflexivity|].
  pose proof (logged_call_is_counted 1 "gpt-4o" 1000 500
                (snd (start_task 0 "task-1" __init__)) eq_refl) as H.
  cbv zeta in H.
  change (call_cost "gpt-4o" 1000 500) with (ret (A:=float) 0.0075%float) in H.
  destruct H as (R & _ & N & _ & _ & T & _).
  split; [exact R|]. split; [rewrite N | rewrite T]; reflexivity.
Defined.

(** X19.  [end_task] never loses a call: for a known id it stamps the
    end time on the task, returns it with its calls, and clears the
    current task only when that is the one ended; for an unknown id it
    returns a task with no calls and leaves the tracker unchanged.
    Either way the numbers of calls, tokens and tasks in [get_stats()]
    are what they were. *)
Theorem end_task_keeps_calls (now now' : float) (id : string) (self : t) :
  let out := end_task now now' id self in
  s_num_calls (get_stats (snd out)) = s_num_calls (get_stats self) /\
  s_total_input_tokens (get_stats (snd out)) = s_total_input_tokens (get_stats self) /\
  s_total_output_tokens (get_stats (snd out)) = s_total_output_tokens (get_stats self) /\
  s_num_tasks (get_stats (snd out)) = s_num_tasks (get_stats self) /\
  match dict_get id (tasks self) with
  | Some task =>
      fst out = mk_task (task_id task) (start_time task) (Some now) (llm_calls task) /\
      dict_get id (tasks (snd out)) = Some (fst out) /\
      current_task_id (snd out) =
        match current_task_id self with
        | Some cur => if String.eqb cur id then None else Some cur
        | None => None
        end
  | None => fst out = mk_task id now (Some now') [] /\ snd out = self
  end.
Proof.
  cbv zeta. unfold end_task.
  destruct (dict_get id (tasks self)) as [task|] eqn:G;
    cbn [fst snd]; [|now repeat split].
  unfold get_stats.
  cbn [s_num_calls s_total_input_tokens s_total_output_tokens s_num_tasks
       tasks current_task_id].
  rewrite !sumZ_dict_set, G, length_dict_set, dict_get_set_same.
  unfold dict_mem. rewrite G.
  unfold total_input_tokens, total_output_tokens. cbn [llm_calls].
  repeat split; lia.
Qed.

(** X20.  [start_task] makes the id current and gives it a task with no
    calls and no end time; every other task is untouched.  Starting an id
    that already has a task replaces that task, so [get_stats()] loses
    the calls it held; starting a new id adds one task. *)
Theorem start_task_restarts (now : float) (id : string) (self : t) :
  let out := start_task now id self in
  fst out = id /\
  current_task_id (snd out) = Some id /\
  (forall other : string,
      dict_get other (tasks (snd out)) =
      if String.eqb other id then Some (mk_task id now None [])
      else dict_get other (tasks self)) /\
  match dict_get id (tasks self) with
  | Some old =>
      s_num_calls (get_stats (snd out)) =
        s_num_calls (get_stats self) - Z.of_nat (List.length (llm_calls old)) /\
      s_num_tasks (get_stats (snd out)) = s_num_tasks (get_stats self)
  | None =>
      s_num_calls (get_stats (snd out)) = s_num_calls (get_stats self) /\
      s_num_tasks (get_stats (snd out)) = s_num_tasks (get_stats self) + 1
  end.
Proof.
  cbv zeta. unfold start_task. cbn [fst snd tasks current_task_id].
  split; [reflexivity|]. split; [reflexivity|]. split.
  { intros other. destruct (String.eqb other id) eqn:K.
    - apply String.eqb_eq in K. subst other. apply dict_get_set_same.
    - now apply dict_get_set_other. }
  unfold get_stats. cbn [s_num_calls s_num_tasks tasks].
  rewrite sumZ_dict_set, length_dict_set. unfold dict_mem.
  destruct (dict_get id (tasks self)); cbn [llm_calls List.length]; split; lia.
Qed.

End Tasks.

(* ================================================================== *)
(** * Sessions are independent; snapshots can be lost                   *)
(* ================================================================== *)

Section Isolation.

Import CostTracker Spec Tally.

Lemma update_lookup (m : LLMCallMetrics.t) (sid : string) (sc : dict Session.t) :
  dict_get sid (update_sessions m sc) =
  if String.eqb (LLMCallMetrics.session_id m) sid
  then Some (fold_in m (match dict_get sid sc with
                        | Some s => s
                        | None => new_session m
                        end))
  else dict_get sid sc.
Proof.
  rewrite update_sessions_set.
  destruct (String.eqb (LLMCallMetrics.session_id m) sid) eqn:K.
  - apply String.eqb_eq in K. subst sid. now rewrite dict_get_set_same.
  - apply dict_get_set_other. now rewrite String.eqb_sym.
Qed.

Lemma replay_lookup_ext (recs : list LLMCallMetrics.t) (sid : string)
    (sc1 sc2 : dict Session.t) :
  dict_get sid sc1 = dict_get sid sc2 ->
  dict_get sid (replay recs sc1) = dict_get sid (replay recs sc2).
Proof.
  revert sc1 sc2. induction recs as [|m recs IH]; intros sc1 sc2 E; [exact E|].
  change (replay (m :: recs) sc1) with (replay recs (update_sessions m sc1)).
  change (replay (m :: recs) sc2) with (replay recs (update_sessions m sc2)).
  apply IH. now rewrite !update_lookup, E.
Qed.

Lemma replay_own_records (recs : list LLMCallMetrics.t) (sid : string)
    (sc : dict Session.t) :
  dict_get sid (replay recs sc) = dict_get sid (replay (of_session sid recs) sc).
Proof.
  revert sc. induction recs as [|m recs IH]; intros sc; [reflexivity|].
  change (replay (m :: recs) sc) with (replay recs (update_sessions m sc)).
  unfold of_session in *. cbn [filter].
  destruct (String.eqb (LLMCallMetrics.session_id m) sid) eqn:K.
  - apply IH.
  - rewrite IH. apply replay_lookup_ext. now rewrite update_lookup, K.
Qed.

(** X21.  Sessions do not disturb each other: after any sequence of
    [track_call] invocations, a session's rollup (its totals, timestamps
    and breakdowns, the float costs included) is what folding its own
    Call Records, in call order, into the rollup it had before gives;
    the calls of other sessions, however they were interleaved, leave no
    mark on it. *)
Theorem session_rollup_depends_on_own_records
    (self : t) (cs : list call) (sid : string) :
  let recs := records (fst (run cs self)) in
  get_session_cost sid (snd (run cs self)) =
  dict_get sid (replay (of_session sid recs) (session_costs self)).
Proof.
  cbv zeta. unfold get_session_cost. rewrite run_sessions.
  apply replay_own_records.
Qed.

(** X22.  What a failed rewrite of the snapshot costs.  When a call
    returns but [json.dump] fails after the file was opened for writing,
    the snapshot on disk is left unreadable, and a tracker constructed
    next starts with no sessions at all, with the load failure logged;
    when it is [open] that fails, the earlier snapshot is still there,
    untouched. *)
Theorem failed_dump_loses_snapshot
    (c : call) (self : t) (ienv : init_io) (fresh : t) :
  raised (fst (track c self)) = false ->
  json_dump (c_env c) <> Written ->
  __init__ ienv (files_of (snd (track c self))) = inr fresh ->
  match json_dump (c_env c) with
  | DumpFailed =>
      get_all_sessions fresh = [] /\
      In (ERROR, "Failed to load session costs") (log fresh)
  | _ =>
      session_file (snd (track c self)) = session_file self
  end /\
  In (ERROR, "Failed to save session costs") (log (snd (track c self))).
Proof.
  unfold track, track_call.
  destruct (calculate_cost _ _ _) as [e|costs]; [discriminate|].
  intros _ W.
  unfold _update_session, _save_session_costs, _log_to_csv, emit.
  destruct (json_dump (c_env c)); [congruence| |].
  - destruct (csv_append_ok (c_env c)); cbn; intros _;
      (split; [reflexivity|]); rewrite ?in_app_iff; cbn; tauto.
  - unfold __init__, _init_csv, bind, ret, raise.
    destruct (mkdir_ok ienv); [|discriminate].
    destruct (csv_append_ok (c_env c)); cbn;
      try (destruct (csv_file self); [|destruct (csv_create_ok ienv)]);
      try discriminate; intros [= <-]; cbn;
      rewrite ?in_app_iff; cbn; tauto.
Qed.

Lemma failed_dump_after_three_calls :
  let c := mk_call (mk_io "t4" true DumpFailed) "s1" "Planner" "gpt-4o"
                   "openai" 1 1 0%float in
  let self := snd (run Scenario.three_calls Scenario.fresh) in
  raised (fst (track c self)) = false /\
  option_map Session.total_calls (get_session_cost "s1" (snd (track c self)))
    = Some 4 /\
  exists fresh : t,
    __init__ (mk_init_io true true) (files_of (snd (track c self))) = inr fresh /\
    get_all_sessions fresh = [].
Proof.
  cbv zeta. split; [reflexivity|]. split; [reflexivity|].
  destruct (__init__ (mk_init_io true true)
              (files_of
                 (snd (track (mk_call (mk_io "t4" true DumpFailed) "s1" "Planner"
                                "gpt-4o" "openai" 1 1 0%float)
                         (snd (run Scenario.three_calls Scenario.fresh))))))
    as [e|fresh] eqn:I.
  - vm_compute in I. discriminate I.
  - exists fresh. split; [reflexivity|].
    refine (proj1 (proj1 (failed_dump_loses_snapshot
              (mk_call (mk_io "t4" true DumpFailed) "s1" "Planner" "gpt-4o"
                       "openai" 1 1 0%float)
              (snd (run Scenario.three_calls Scenario.fresh))
              (mk_init_io true true) fresh eq_refl _ I))).
    cbn. discriminate.
Defined.

End Isolation.
